(** * CfdOF reporting functions: the document object, its view provider
      and the menu command of [CfdOF/PostProcess/CfdReportingFunctions.py]

    The module is glue between the workbench and its host (FreeCAD): every
    function of the file is a short sequence of calls into the host, into
    the helper module [CfdTools] and of attribute reads and writes on the
    objects it is handed.  The embedding keeps exactly that: a function of
    the source becomes a program whose only primitive is "perform this
    interaction and continue with the answer"; the host is a parameter of
    the interpreter, which records every interaction together with its
    answer.  What a function does is then read off the record of a run. *)

From stdpp Require Import base strings gmap list.
From Stdlib Require Import ZArith.

Open Scope string_scope.
Open Scope list_scope.

(** ** Python values *)

(** The values the module handles.  Objects that live in the host document
    (document objects, view objects, proxies, task panels, scene-graph
    nodes) are references; [VVector x y z] is [FreeCAD.Vector(x, y, z)]. *)
#[warnings="-register-all"]
Inductive PyVal : Type :=
| VNone
| VBool (b : bool)
| VInt (n : Z)
| VStr (s : string)
| VList (items : list PyVal)
| VDict (entries : list (string * PyVal))
| VVector (x y z : Z)
| VModule (name : string)
| VRef (r : positive).

(** [v is None] *)
Definition is_none (v : PyVal) : bool :=
  match v with VNone => true | _ => false end.

(** Truth value of [v] in a condition ([if v:], [v and ...], [not v]).
    Objects behind a reference define neither [__bool__] nor [__len__] and
    are true. *)
Definition truthy (v : PyVal) : bool :=
  match v with
  | VNone => false
  | VBool b => b
  | VInt n => negb (n =? 0)%Z
  | VStr s => negb (String.eqb s "")
  | VList items => match items with [] => false | _ => true end
  | VDict entries => match entries with [] => false | _ => true end
  | VVector _ _ _ | VModule _ | VRef _ => true
  end.

(** ** Interactions with the host *)

(** One constructor per way the source reaches outside itself.  Names are
    kept as the dotted paths the source writes, so the type does not limit
    which functions a program may call. *)
Inductive Event : Type :=
| EGlobal (path : string)
    (* value of a dotted name rooted at an imported module: FreeCAD.GuiUp *)
| ECall (f : string) (args : list PyVal)
    (* call of a dotted name rooted at an imported module *)
| EMethod (recv : PyVal) (m : string) (args : list PyVal)
    (* recv.m(args) on an object held in a local variable *)
| EGetAttr (o : PyVal) (a : string)            (* o.a *)
| ESetAttr (o : PyVal) (a : string) (v : PyVal) (* o.a = v *)
| ENew (cls : string)
    (* allocation of an instance of a class of this module *)
| EImport (module : string).                   (* import inside a function *)

(** A host interaction either answers with a value or raises. *)
Inductive Outcome (A : Type) : Type :=
| Returned (a : A)
| Raised (exn : PyVal).
Arguments Returned {A} a.
Arguments Raised {A} exn.

(** ** Programs *)

Inductive Prog (A : Type) : Type :=
| Ret (a : A)
| Do (e : Event) (k : PyVal -> Prog A).
Arguments Ret {A} a.
Arguments Do {A} e k.

Fixpoint bind {A B} (p : Prog A) (f : A -> Prog B) : Prog B :=
  match p with
  | Ret a => f a
  | Do e k => Do e (fun v => bind (k v) f)
  end.

#[global] Instance prog_ret : MRet Prog := @Ret.
#[global] Instance prog_bind : MBind Prog := fun A B f p => bind p f.

Definition perform (e : Event) : Prog PyVal := Do e Ret.

Definition global (path : string) : Prog PyVal := perform (EGlobal path).
Definition call (f : string) (args : list PyVal) : Prog PyVal :=
  perform (ECall f args).
Definition method (recv : PyVal) (m : string) (args : list PyVal)
  : Prog PyVal := perform (EMethod recv m args).
Definition getattr (o : PyVal) (a : string) : Prog PyVal :=
  perform (EGetAttr o a).
Definition setattr (o : PyVal) (a : string) (v : PyVal) : Prog PyVal :=
  perform (ESetAttr o a v).
Definition import_module (m : string) : Prog PyVal := perform (EImport m).

(** [cls(args)]: allocate the instance, run [__init__] on it, yield it. *)
Definition instantiate (cls : string) (init : PyVal -> Prog PyVal)
  : Prog PyVal :=
  self ← perform (ENew cls);
  init self;;
  mret self.

(** ** The source, function by function *)

(** *** Constants *)

Definition OBJECT_NAMES : list string :=
  ["Force"; "ForceCoefficients"; "Probes"].

Definition OBJECT_DESCRIPTIONS : list string :=
  ["Calculate forces on patches";
   "Calculate force coefficients from patches";
   "Sample fields at specified locations"].

Definition FUNCTIONS_UI : list Z := [0; 0; 1]%Z.

Definition FORCES_UI : list (list bool) :=
  [[true; false; true];
   [true; true; true]].

(** [from CfdOF.CfdTools import addObjectProperty]: the helper lives in
    [CfdTools]; a use of it is a call into that module. *)
Definition addObjectProperty (obj : PyVal) (prop : string) (init_val : PyVal)
    (type group doc : string) : Prog PyVal :=
  call "CfdTools.addObjectProperty"
       [obj; VStr prop; init_val; VStr type; VStr group; VStr doc].

(** *** class _CfdReportingFunctions *)

Module _CfdReportingFunctions.

Definition initProperties (self obj : PyVal) : Prog PyVal :=
  (* Setup and utility *)
  addObjectProperty obj "ReportingFunctionType" (VList (VStr <$> OBJECT_NAMES))
    "App::PropertyEnumeration" "" "Type of reporting function";;
  addObjectProperty obj "Patch" VNone
    "App::PropertyLink" "Function object"
    "Patch on which to create the function object";;
  (* Forces *)
  addObjectProperty obj "ReferenceDensity" (VStr "1 kg/m^3")
    "App::PropertyQuantity" "Forces" "Reference density";;
  addObjectProperty obj "ReferencePressure" (VStr "0 Pa")
    "App::PropertyPressure" "Forces" "Reference pressure";;
  addObjectProperty obj "CentreOfRotation" (VVector 0 0 0)
    "App::PropertyPosition" "Forces" "Centre of rotation";;
  addObjectProperty obj "WriteFields" (VBool false)
    "App::PropertyBool" "Forces" "Whether to write output fields";;
  (* Force coefficients *)
  addObjectProperty obj "Lift" (VVector 1 0 0)
    "App::PropertyVector" "Force coefficients" "Lift direction (x component)";;
  addObjectProperty obj "Drag" (VVector 0 1 0)
    "App::PropertyVector" "Force coefficients" "Drag direction";;
  addObjectProperty obj "Pitch" (VVector 0 0 1)
    "App::PropertyVector" "Force coefficients" "Centre of pitch";;
  addObjectProperty obj "MagnitudeUInf" (VStr "1 m/s")
    "App::PropertyQuantity" "Force coefficients"
    "Freestream velocity magnitude";;
  addObjectProperty obj "LengthRef" (VStr "1 m")
    "App::PropertyQuantity" "Force coefficients"
    "Coefficient length reference";;
  addObjectProperty obj "AreaRef" (VStr "1 m^2")
    "App::PropertyQuantity" "Force coefficients"
    "Coefficient area reference";;
  (* Spatial binning *)
  addObjectProperty obj "NBins" (VInt 0)
    "App::PropertyInteger" "Forces" "Number of bins";;
  addObjectProperty obj "Direction" (VVector 1 0 0)
    "App::PropertyVector" "Forces" "Binning direction";;
  addObjectProperty obj "Cumulative" (VBool true)
    "App::PropertyBool" "Forces" "Cumulative";;
  (* Probes *)
  addObjectProperty obj "SampleFieldName" (VStr "p")
    "App::PropertyString" "Probes" "Name of the field to sample";;
  addObjectProperty obj "ProbePosition" (VVector 0 0 0)
    "App::PropertyPosition" "Probes"
    "Location of the probe sample location";;
  mret VNone.

Definition __init__ (self obj : PyVal) : Prog PyVal :=
  setattr self "Type" (VStr "ReportingFunction");;
  setattr self "Object" obj;;
  setattr obj "Proxy" self;;
  initProperties self obj;;
  mret VNone.

Definition onDocumentRestored (self obj : PyVal) : Prog PyVal :=
  initProperties self obj;;
  mret VNone.

Definition execute (self obj : PyVal) : Prog PyVal :=
  mret VNone.

Definition __getstate__ (self : PyVal) : Prog PyVal :=
  mret VNone.

Definition __setstate__ (self state : PyVal) : Prog PyVal :=
  mret VNone.

End _CfdReportingFunctions.

(** *** class _ViewProviderCfdReportingFunctions *)

Module _ViewProviderCfdReportingFunctions.

Definition __init__ (self vobj : PyVal) : Prog PyVal :=
  setattr vobj "Proxy" self;;
  setattr self "taskd" VNone;;
  mret VNone.

Definition getIcon (self : PyVal) : Prog PyVal :=
  module_path ← call "CfdTools.getModulePath" [];
  icon_path ← call "os.path.join"
                [module_path; VStr "Gui"; VStr "Icons"; VStr "monitor.svg"];
  mret icon_path.

Definition attach (self vobj : PyVal) : Prog PyVal :=
  setattr self "ViewObject" vobj;;
  object ← getattr vobj "Object";
  setattr self "Object" object;;
  group ← call "coin.SoGroup" [];
  setattr self "standard" group;;
  standard ← getattr self "standard";
  method vobj "addDisplayMode" [standard; VStr "Standard"];;
  mret VNone.

Definition getDisplayModes (self obj : PyVal) : Prog PyVal :=
  let modes := VList [] in
  mret modes.

Definition getDefaultDisplayMode (self : PyVal) : Prog PyVal :=
  mret (VStr "Shaded").

Definition setDisplayMode (self mode : PyVal) : Prog PyVal :=
  mret mode.

Definition updateData (self obj prop : PyVal) : Prog PyVal :=
  analysis_obj ← call "CfdTools.getParentAnalysisObject" [obj];
  (if truthy analysis_obj then
     proxy ← getattr analysis_obj "Proxy";
     loading ← getattr proxy "loading";
     if negb (truthy loading) then
       setattr analysis_obj "NeedsCaseRewrite" (VBool true)
     else mret VNone
   else mret VNone);;
  mret VNone.

Definition onChanged (self vobj prop : PyVal) : Prog PyVal :=
  call "CfdTools.setCompSolid" [vobj];;
  mret VNone.

Definition doubleClicked (self vobj : PyVal) : Prog PyVal :=
  object ← getattr vobj "Object";
  document ← getattr object "Document";
  doc ← call "FreeCADGui.getDocument" [document];
  in_edit ← method doc "getInEdit" [];
  (if negb (truthy in_edit) then
     object ← getattr vobj "Object";
     name ← getattr object "Name";
     method doc "setEdit" [name]
   else
     call "FreeCAD.Console.PrintError" [VStr "Task dialog already active
"];;
     call "FreeCADGui.Control.showTaskView" []);;
  mret (VBool true).

Definition setEdit (self vobj mode : PyVal) : Prog PyVal :=
  object ← getattr self "Object";
  analysis_object ← call "CfdTools.getParentAnalysisObject" [object];
  if is_none analysis_object then
    call "CfdTools.cfdErrorBox"
         [VStr "Reporting function must have a parent analysis object"];;
    mret (VBool false)
  else
    TaskPanelCfdReportingFunctions ←
      import_module "CfdOF.PostProcess.TaskPanelCfdReportingFunctions";
    import_module "importlib";;
    call "importlib.reload" [TaskPanelCfdReportingFunctions];;
    object ← getattr self "Object";
    taskd ← method TaskPanelCfdReportingFunctions
              "TaskPanelCfdReportingFunctions" [object];
    object ← getattr self "Object";
    view_object ← getattr object "ViewObject";
    method view_object "show" [];;
    object ← getattr vobj "Object";
    setattr taskd "obj" object;;
    call "FreeCADGui.Control.showDialog" [taskd];;
    mret (VBool true).

Definition unsetEdit (self vobj mode : PyVal) : Prog PyVal :=
  call "FreeCADGui.Control.closeDialog" [];;
  mret VNone.

Definition __getstate__ (self : PyVal) : Prog PyVal :=
  mret VNone.

Definition __setstate__ (self state : PyVal) : Prog PyVal :=
  mret VNone.

End _ViewProviderCfdReportingFunctions.

(** *** def makeCfdReportingFunctions *)

(** [name] is [None] when the caller leaves the parameter out. *)
Definition makeCfdReportingFunctions (name : option string) : Prog PyVal :=
  let name := default "ReportingFunction" name in
  obj ← call "FreeCAD.ActiveDocument.addObject"
          [VStr "Part::FeaturePython"; VStr name];
  instantiate "_CfdReportingFunctions"
    (fun self => _CfdReportingFunctions.__init__ self obj);;
  gui_up ← global "FreeCAD.GuiUp";
  (if truthy gui_up then
     view_object ← getattr obj "ViewObject";
     instantiate "_ViewProviderCfdReportingFunctions"
       (fun self => _ViewProviderCfdReportingFunctions.__init__ self view_object)
   else mret VNone);;
  mret obj.

(** *** class _CommandCfdReportingFunctions *)

Module _CommandCfdReportingFunctions.

Definition GetResources (self : PyVal) : Prog PyVal :=
  module_path ← call "CfdTools.getModulePath" [];
  icon_path ← call "os.path.join"
                [module_path; VStr "Gui"; VStr "Icons"; VStr "monitor.svg"];
  menu_text ← call "QtCore.QT_TRANSLATE_NOOP"
                [VStr "Cfd_ReportingFunctions"; VStr "Reporting function"];
  tool_tip ← call "QtCore.QT_TRANSLATE_NOOP"
               [VStr "Cfd_ReportingFunctions";
                VStr "Create a reporting function for the current case"];
  mret (VDict [("Pixmap", icon_path);
               ("MenuText", menu_text);
               ("ToolTip", tool_tip)]).

Definition IsActive (self : PyVal) : Prog PyVal :=
  analysis ← call "CfdTools.getActiveAnalysis" [];
  mret (VBool (negb (is_none analysis))).

Definition Activated (self : PyVal) : Prog PyVal :=
  call "FreeCAD.ActiveDocument.openTransaction"
       [VStr "Create CfdReportingFunctions object"];;
  call "FreeCADGui.doCommand"
       [VStr "from CfdOF.PostProcess import CfdReportingFunctions"];;
  call "FreeCADGui.doCommand" [VStr "from CfdOF import CfdTools"];;
  call "FreeCADGui.doCommand"
       [VStr "CfdTools.getActiveAnalysis().addObject(CfdReportingFunctions.makeCfdReportingFunctions())"];;
  name ← global "FreeCAD.ActiveDocument.ActiveObject.Name";
  call "FreeCADGui.ActiveDocument.setEdit" [name];;
  mret VNone.

End _CommandCfdReportingFunctions.

(** ** Running a program against a host *)

(** One line of the record of a run: what was asked, what came back. *)
Record Entry : Type := { event : Event; answer : Outcome PyVal }.

(** An interaction that was answered with the value [v]. *)
Definition ask (e : Event) (v : PyVal) : Entry :=
  {| event := e; answer := Returned v |}.

Record Run (H A : Type) : Type :=
  { outcome : Outcome A; final : H; trace : list Entry }.
Arguments outcome {H A} r.
Arguments final {H A} r.
Arguments trace {H A} r.

(** The host answers an interaction from its state [H] and moves to a new
    state.  An exception raised by the host ends the run at once: the
    module has no [try] anywhere. *)
Fixpoint interp {H A} (host : Event -> H -> Outcome PyVal * H)
    (p : Prog A) (h : H) : Run H A :=
  match p with
  | Ret a => {| outcome := Returned a; final := h; trace := [] |}
  | Do e k =>
      match host e h with
      | (Returned v, h') =>
          let r := interp host (k v) h' in
          {| outcome := outcome r; final := final r;
             trace := ask e v :: trace r |}
      | (Raised x, h') =>
          {| outcome := Raised x; final := h';
             trace := [{| event := e; answer := Raised x |}] |}
      end
  end.

Definition events (tr : list Entry) : list Event := event <$> tr.

(** The host raises on nothing. *)
Definition never_raises {H} (host : Event -> H -> Outcome PyVal * H) : Prop :=
  forall e h, exists v h', host e h = (Returned v, h').

(** ** The declared properties, as a table *)

Record Property : Type :=
  { pname : string; pdefault : PyVal; ptype : string;
    pgroup : string; pdoc : string }.

Definition declare (obj : PyVal) (p : Property) : Event :=
  ECall "CfdTools.addObjectProperty"
        [obj; VStr (pname p); pdefault p; VStr (ptype p);
         VStr (pgroup p); VStr (pdoc p)].

Definition reporting_function_properties : list Property :=
  [ {| pname := "ReportingFunctionType";
       pdefault := VList [VStr "Force"; VStr "ForceCoefficients"; VStr "Probes"];
       ptype := "App::PropertyEnumeration"; pgroup := "";
       pdoc := "Type of reporting function" |};
    {| pname := "Patch"; pdefault := VNone;
       ptype := "App::PropertyLink"; pgroup := "Function object";
       pdoc := "Patch on which to create the function object" |};
    {| pname := "ReferenceDensity"; pdefault := VStr "1 kg/m^3";
       ptype := "App::PropertyQuantity"; pgroup := "Forces";
       pdoc := "Reference density" |};
    {| pname := "ReferencePressure"; pdefault := VStr "0 Pa";
       ptype := "App::PropertyPressure"; pgroup := "Forces";
       pdoc := "Reference pressure" |};
    {| pname := "CentreOfRotation"; pdefault := VVector 0 0 0;
       ptype := "App::PropertyPosition"; pgroup := "Forces";
       pdoc := "Centre of rotation" |};
    {| pname := "WriteFields"; pdefault := VBool false;
       ptype := "App::PropertyBool"; pgroup := "Forces";
       pdoc := "Whether to write output fields" |};
    {| pname := "Lift"; pdefault := VVector 1 0 0;
       ptype := "App::PropertyVector"; pgroup := "Force coefficients";
       pdoc := "Lift direction (x component)" |};
    {| pname := "Drag"; pdefault := VVector 0 1 0;
       ptype := "App::PropertyVector"; pgroup := "Force coefficients";
       pdoc := "Drag direction" |};
    {| pname := "Pitch"; pdefault := VVector 0 0 1;
       ptype := "App::PropertyVector"; pgroup := "Force coefficients";
       pdoc := "Centre of pitch" |};
    {| pname := "MagnitudeUInf"; pdefault := VStr "1 m/s";
       ptype := "App::PropertyQuantity"; pgroup := "Force coefficients";
       pdoc := "Freestream velocity magnitude" |};
    {| pname := "LengthRef"; pdefault := VStr "1 m";
       ptype := "App::PropertyQuantity"; pgroup := "Force coefficients";
       pdoc := "Coefficient length reference" |};
    {| pname := "AreaRef"; pdefault := VStr "1 m^2";
       ptype := "App::PropertyQuantity"; pgroup := "Force coefficients";
       pdoc := "Coefficient area reference" |};
    {| pname := "NBins"; pdefault := VInt 0;
       ptype := "App::PropertyInteger"; pgroup := "Forces";
       pdoc := "Number of bins" |};
    {| pname := "Direction"; pdefault := VVector 1 0 0;
       ptype := "App::PropertyVector"; pgroup := "Forces";
       pdoc := "Binning direction" |};
    {| pname := "Cumulative"; pdefault := VBool true;
       ptype := "App::PropertyBool"; pgroup := "Forces";
       pdoc := "Cumulative" |};
    {| pname := "SampleFieldName"; pdefault := VStr "p";
       ptype := "App::PropertyString"; pgroup := "Probes";
       pdoc := "Name of the field to sample" |};
    {| pname := "ProbePosition"; pdefault := VVector 0 0 0;
       ptype := "App::PropertyPosition"; pgroup := "Probes";
       pdoc := "Location of the probe sample location" |} ].

(** The row of the table for a property name, if it has one. *)
Definition property (name : string) : option Property :=
  List.find (fun p => String.eqb (pname p) name) reporting_function_properties.

(** The names of the rows of a group. *)
Definition group_members (group : string) : list string :=
  pname <$> List.filter (fun p => String.eqb (pgroup p) group)
                        reporting_function_properties.

(** ** A reference host *)

(** Modelled from the spec: the host application (its document objects,
    view objects, console and dialogs) and the helper module [CfdTools]
    are not part of this file.  The spec calls the module "glue between the
    host application's object/property system, its scenegraph-based 3D
    view, and its task-dialog UI framework" and the object "a declarative
    property bag"; the reference host is the plainest host of that kind:
    objects are bags of attributes, declaring a property that is absent
    creates it with its initial value, the remaining interfaces answer
    [None].  It gives the theorems below, which hold for every host, a
    concrete host to run on. *)
Module Reference.

Record Host : Type :=
  { heap : gmap positive (gmap string PyVal);   (* attributes per object *)
    next : positive;                            (* next free reference *)
    globals : gmap string PyVal;                (* FreeCAD.GuiUp, ... *)
    declared : gmap positive (list Property);   (* declarations per object *)
    active_analysis : option positive;
    parent_analysis : gmap positive positive }.

Definition with_heap (hp : gmap positive (gmap string PyVal)) (h : Host)
  : Host :=
  {| heap := hp; next := next h; globals := globals h;
     declared := declared h; active_analysis := active_analysis h;
     parent_analysis := parent_analysis h |}.

Definition AttributeError : PyVal := VStr "AttributeError".
Definition TypeError : PyVal := VStr "TypeError".

Definition read_attr (r : positive) (a : string) (h : Host) : option PyVal :=
  heap h !! r ≫= fun attrs => attrs !! a.

Definition write_attr (r : positive) (a : string) (v : PyVal) (h : Host)
  : Host :=
  with_heap (<[r := <[a := v]> (default ∅ (heap h !! r))]> (heap h)) h.

Definition alloc (attrs : gmap string PyVal) (h : Host) : positive * Host :=
  (next h,
   {| heap := <[next h := attrs]> (heap h); next := Pos.succ (next h);
      globals := globals h; declared := declared h;
      active_analysis := active_analysis h;
      parent_analysis := parent_analysis h |}).

Definition of_option (o : option PyVal) : PyVal := default VNone o.

(** The value a freshly declared property reads as: the first item for
    an enumeration, the initial value otherwise. *)
Definition initial_value (p : Property) : PyVal :=
  if String.eqb (ptype p) "App::PropertyEnumeration" then
    match pdefault p with
    | VList (first :: _) => first
    | _ => VNone
    end
  else pdefault p.

(** [CfdTools.addObjectProperty]: declare the property when the object
    does not have it yet; answer whether it was added. *)
Definition add_property (o : positive) (p : Property) (h : Host)
  : bool * Host :=
  match read_attr o (pname p) h with
  | Some _ => (false, h)
  | None =>
      let h := write_attr o (pname p) (initial_value p) h in
      (true,
       {| heap := heap h; next := next h; globals := globals h;
          declared := <[o := default [] (declared h !! o) ++ [p]]> (declared h);
          active_analysis := active_analysis h;
          parent_analysis := parent_analysis h |})
  end.

(** [FreeCAD.ActiveDocument.addObject(type, name)]: a new document
    object, with a view object when the GUI is up; it becomes the active
    object of the document. *)
Definition add_object (type name : string) (h : Host) : positive * Host :=
  let '(o, h) := alloc {[ "TypeId" := VStr type; "Name" := VStr name ]} h in
  let h :=
    if truthy (of_option (globals h !! "FreeCAD.GuiUp")) then
      let '(vo, h) := alloc {[ "Object" := VRef o ]} h in
      write_attr o "ViewObject" (VRef vo) h
    else h in
  (o,
   {| heap := heap h; next := next h;
      globals := <["FreeCAD.ActiveDocument.ActiveObject.Name" := VStr name]>
                   (globals h);
      declared := declared h; active_analysis := active_analysis h;
      parent_analysis := parent_analysis h |}).

(** [group.addObject(o)] on an analysis: [o] joins its [Group] and the
    analysis becomes the parent analysis of [o]. *)
Definition group_add (a : positive) (o : PyVal) (h : Host) : Host :=
  let members :=
    match read_attr a "Group" h with
    | Some (VList l) => l
    | _ => []
    end in
  let h := write_attr a "Group" (VList (members ++ [o])) h in
  match o with
  | VRef r =>
      {| heap := heap h; next := next h; globals := globals h;
         declared := declared h; active_analysis := active_analysis h;
         parent_analysis := <[r := a]> (parent_analysis h) |}
  | _ => h
  end.

Definition join_path (parts : list PyVal) : PyVal :=
  VStr (String.concat "/"
          (omap (fun v => match v with VStr s => Some s | _ => None end)
                parts)).

Definition host_call (f : string) (args : list PyVal) (h : Host)
  : Outcome PyVal * Host :=
  if String.eqb f "CfdTools.addObjectProperty" then
    match args with
    | [VRef o; VStr prop; init; VStr type; VStr group; VStr doc] =>
        let '(added, h) :=
          add_property o {| pname := prop; pdefault := init; ptype := type;
                            pgroup := group; pdoc := doc |} h in
        (Returned (VBool added), h)
    | _ => (Raised TypeError, h)
    end
  else if String.eqb f "FreeCAD.ActiveDocument.addObject" then
    match args with
    | [VStr type; VStr name] =>
        let '(o, h) := add_object type name h in (Returned (VRef o), h)
    | _ => (Raised TypeError, h)
    end
  else if String.eqb f "CfdTools.getActiveAnalysis" then
    (Returned (from_option VRef VNone (active_analysis h)), h)
  else if String.eqb f "CfdTools.getParentAnalysisObject" then
    match args with
    | [VRef o] => (Returned (from_option VRef VNone (parent_analysis h !! o)), h)
    | _ => (Raised AttributeError, h)
    end
  else if String.eqb f "CfdTools.getModulePath" then
    (Returned (VStr "Mod/CfdOF"), h)
  else if String.eqb f "os.path.join" then
    (Returned (join_path args), h)
  else if String.eqb f "QtCore.QT_TRANSLATE_NOOP" then
    (Returned (of_option (args !! 1%nat)), h)
  else if String.eqb f "coin.SoGroup" then
    let '(g, h) := alloc ∅ h in (Returned (VRef g), h)
  else (Returned VNone, h).

Definition host_method (recv : PyVal) (m : string) (args : list PyVal)
    (h : Host) : Outcome PyVal * Host :=
  match recv with
  | VModule _ =>
      if String.eqb m "TaskPanelCfdReportingFunctions" then
        let '(t, h) := alloc {[ "obj" := of_option (args !! 0%nat) ]} h in
        (Returned (VRef t), h)
      else (Raised AttributeError, h)
  | VRef r =>
      if String.eqb m "addObject" then
        (Returned VNone, group_add r (of_option (args !! 0%nat)) h)
      else (Returned VNone, h)
  | _ => (Raised AttributeError, h)
  end.

(** The host without its Python console. *)
Definition base_host (e : Event) (h : Host) : Outcome PyVal * Host :=
  match e with
  | EGlobal path =>
      match globals h !! path with
      | Some v => (Returned v, h)
      | None => (Raised AttributeError, h)
      end
  | ECall f args => host_call f args h
  | EMethod recv m args => host_method recv m args h
  | EGetAttr (VRef r) a =>
      match read_attr r a h with
      | Some v => (Returned v, h)
      | None => (Raised AttributeError, h)
      end
  | EGetAttr _ _ => (Raised AttributeError, h)
  | ESetAttr (VRef r) a v => (Returned VNone, write_attr r a v h)
  | ESetAttr _ _ _ => (Raised AttributeError, h)
  | ENew cls =>
      let '(r, h) := alloc {[ "__class__" := VStr cls ]} h in
      (Returned (VRef r), h)
  | EImport m => (Returned (VModule m), h)
  end.

(** The statements the menu command sends to the console, as the console
    runs them. *)
Definition console_statement (text : string) : option (Prog PyVal) :=
  if String.eqb text "from CfdOF.PostProcess import CfdReportingFunctions"
  then Some (import_module "CfdOF.PostProcess.CfdReportingFunctions")
  else if String.eqb text "from CfdOF import CfdTools"
  then Some (import_module "CfdOF.CfdTools")
  else if String.eqb text
    "CfdTools.getActiveAnalysis().addObject(CfdReportingFunctions.makeCfdReportingFunctions())"
  then Some (analysis ← call "CfdTools.getActiveAnalysis" [];
             obj ← makeCfdReportingFunctions None;
             method analysis "addObject" [obj])
  else None.

(** The host: [FreeCADGui.doCommand(text)] runs the statement. *)
Definition host (e : Event) (h : Host) : Outcome PyVal * Host :=
  match e with
  | ECall f [VStr text] =>
      if String.eqb f "FreeCADGui.doCommand" then
        match console_statement text with
        | Some p =>
            let r := interp base_host p h in
            match outcome r with
            | Returned _ => (Returned VNone, final r)
            | Raised x => (Raised x, final r)
            end
        | None => (Raised (VStr "SyntaxError"), h)
        end
      else base_host e h
  | _ => base_host e h
  end.

(** A document with one analysis (reference 1, its proxy reference 2)
    that is active; the GUI is up when [gui] says so, the analysis is
    being loaded when [loading] says so. *)
Definition document (gui loading : bool) : Host :=
  {| heap := {[ 1%positive := {[ "Name" := VStr "CfdAnalysis";
                                 "Group" := VList [];
                                 "Proxy" := VRef 2;
                                 "NeedsCaseRewrite" := VBool false ]};
                2%positive := {[ "__class__" := VStr "CfdAnalysis";
                                 "loading" := VBool loading ]} ]};
     next := 3%positive;
     globals := {[ "FreeCAD.GuiUp" := VInt (if gui then 1 else 0) ]};
     declared := ∅;
     active_analysis := Some 1%positive;
     parent_analysis := ∅ |}.

(** What a host holds, as plain lists: two hosts with the same snapshot
    are the same host. *)
Record Snapshot : Type :=
  { objects : list (positive * list (string * PyVal));
    free : positive;
    module_names : list (string * PyVal);
    declarations : list (positive * list Property);
    active : option positive;
    parents : list (positive * positive) }.

Definition snapshot (h : Host) : Snapshot :=
  {| objects := map_to_list (map_to_list <$> heap h);
     free := next h;
     module_names := map_to_list (globals h);
     declarations := map_to_list (declared h);
     active := active_analysis h;
     parents := map_to_list (parent_analysis h) |}.

(** The document after the menu command has run: the reporting function
    is object 3, its view object 4, its proxy 5, its view provider 6. *)
Definition activated : Host :=
  final (interp host (_CommandCfdReportingFunctions.Activated VNone)
                (document true false)).

(** The same once the view provider has been attached to the view. *)
Definition attached : Host :=
  final (interp host
                (_ViewProviderCfdReportingFunctions.attach (VRef 6) (VRef 4))
                activated).

End Reference.

(** ** Every interaction a program can perform *)

(** [always P p]: whatever the host answers, each interaction [p] performs
    satisfies [P]. *)
Fixpoint always {A} (P : Event -> Prop) (p : Prog A) : Prop :=
  match p with
  | Ret _ => True
  | Do e k => P e /\ forall v, always P (k v)
  end.

(** The declarations of a list of rows, one after the other. *)
Definition declare_all (obj : PyVal) (ps : list Property) : Prog PyVal :=
  foldr (fun p rest => perform (declare obj p);; rest) (mret VNone) ps.

(** ** The operations of the module and the interfaces they use *)

(** Every function and method the file defines, with its arguments. *)
Inductive Operation : Type :=
| Make (name : option string)
| Command_GetResources (self : PyVal)
| Command_IsActive (self : PyVal)
| Command_Activated (self : PyVal)
| Object_init (self obj : PyVal)
| Object_initProperties (self obj : PyVal)
| Object_onDocumentRestored (self obj : PyVal)
| Object_execute (self obj : PyVal)
| Object_getstate (self : PyVal)
| Object_setstate (self state : PyVal)
| View_init (self vobj : PyVal)
| View_getIcon (self : PyVal)
| View_attach (self vobj : PyVal)
| View_getDisplayModes (self obj : PyVal)
| View_getDefaultDisplayMode (self : PyVal)
| View_setDisplayMode (self mode : PyVal)
| View_updateData (self obj prop : PyVal)
| View_onChanged (self vobj prop : PyVal)
| View_doubleClicked (self vobj : PyVal)
| View_setEdit (self vobj mode : PyVal)
| View_unsetEdit (self vobj mode : PyVal)
| View_getstate (self : PyVal)
| View_setstate (self state : PyVal).

Definition body (op : Operation) : Prog PyVal :=
  match op with
  | Make name => makeCfdReportingFunctions name
  | Command_GetResources self => _CommandCfdReportingFunctions.GetResources self
  | Command_IsActive self => _CommandCfdReportingFunctions.IsActive self
  | Command_Activated self => _CommandCfdReportingFunctions.Activated self
  | Object_init self obj => _CfdReportingFunctions.__init__ self obj
  | Object_initProperties self obj =>
      _CfdReportingFunctions.initProperties self obj
  | Object_onDocumentRestored self obj =>
      _CfdReportingFunctions.onDocumentRestored self obj
  | Object_execute self obj => _CfdReportingFunctions.execute self obj
  | Object_getstate self => _CfdReportingFunctions.__getstate__ self
  | Object_setstate self state => _CfdReportingFunctions.__setstate__ self state
  | View_init self vobj => _ViewProviderCfdReportingFunctions.__init__ self vobj
  | View_getIcon self => _ViewProviderCfdReportingFunctions.getIcon self
  | View_attach self vobj => _ViewProviderCfdReportingFunctions.attach self vobj
  | View_getDisplayModes self obj =>
      _ViewProviderCfdReportingFunctions.getDisplayModes self obj
  | View_getDefaultDisplayMode self =>
      _ViewProviderCfdReportingFunctions.getDefaultDisplayMode self
  | View_setDisplayMode self mode =>
      _ViewProviderCfdReportingFunctions.setDisplayMode self mode
  | View_updateData self obj prop =>
      _ViewProviderCfdReportingFunctions.updateData self obj prop
  | View_onChanged self vobj prop =>
      _ViewProviderCfdReportingFunctions.onChanged self vobj prop
  | View_doubleClicked self vobj =>
      _ViewProviderCfdReportingFunctions.doubleClicked self vobj
  | View_setEdit self vobj mode =>
      _ViewProviderCfdReportingFunctions.setEdit self vobj mode
  | View_unsetEdit self vobj mode =>
      _ViewProviderCfdReportingFunctions.unsetEdit self vobj mode
  | View_getstate self => _ViewProviderCfdReportingFunctions.__getstate__ self
  | View_setstate self state =>
      _ViewProviderCfdReportingFunctions.__setstate__ self state
  end.

(** What an interaction is for. *)
Inductive Interface : Type :=
| Properties    (* declaring a property of a document object *)
| Constants     (* the module path, the icon path, a menu text, a host flag,
                   a vector built from literal components *)
| Objects       (* document and view objects, their attributes and proxies,
                   the analysis they belong to *)
| Transactions  (* the document's transaction and the console recorded in it *)
| Dialogs.      (* the task panel, edit mode, the error box and messages *)


(** The first interface whose list of names has [name]. *)
Fixpoint classify (table : list (Interface * list string)) (name : string)
  : option Interface :=
  match table with
  | [] => None
  | (i, names) :: rest =>
      if existsb (String.eqb name) names then Some i else classify rest name
  end.

Definition functions : list (Interface * list string) :=
  [ (Properties, ["CfdTools.addObjectProperty"]);
    (Constants, ["CfdTools.getModulePath"; "os.path.join";
                 "QtCore.QT_TRANSLATE_NOOP"; "FreeCAD.Vector"]);
    (Objects, ["FreeCAD.ActiveDocument.addObject";
               "CfdTools.getActiveAnalysis";
               "CfdTools.getParentAnalysisObject";
               "CfdTools.setCompSolid";
               "FreeCADGui.getDocument";
               "coin.SoGroup"]);
    (Transactions, ["FreeCAD.ActiveDocument.openTransaction";
                    "FreeCADGui.doCommand"]);
    (Dialogs, ["CfdTools.cfdErrorBox";
               "FreeCAD.Console.PrintError";
               "FreeCADGui.ActiveDocument.setEdit";
               "FreeCADGui.Control.showDialog";
               "FreeCADGui.Control.closeDialog";
               "FreeCADGui.Control.showTaskView";
               "importlib.reload"]) ].

Definition methods : list (Interface * list string) :=
  [ (Objects, ["addDisplayMode"; "show"]);
    (Dialogs, ["getInEdit"; "setEdit"; "TaskPanelCfdReportingFunctions"]) ].

Definition names : list (Interface * list string) :=
  [ (Constants, ["FreeCAD.GuiUp"]);
    (Objects, ["FreeCAD.ActiveDocument.ActiveObject.Name"]) ].

Definition classes : list (Interface * list string) :=
  [ (Objects, ["_CfdReportingFunctions";
               "_ViewProviderCfdReportingFunctions"]) ].

Definition modules : list (Interface * list string) :=
  [ (Dialogs, ["CfdOF.PostProcess.TaskPanelCfdReportingFunctions";
               "importlib"]) ].

(** The interface an interaction belongs to; [None] for anything that is
    not one of the names above: a solver, a file, arithmetic. *)
Definition interface_of (e : Event) : option Interface :=
  match e with
  | ECall f _ => classify functions f
  | EMethod _ m _ => classify methods m
  | EGlobal path => classify names path
  | ENew cls => classify classes cls
  | EImport m => classify modules m
  | EGetAttr _ _ | ESetAttr _ _ _ => Some Objects
  end.



(** The attributes an operation may assign, on any object. *)
Definition writes (op : Operation) : list string :=
  match op with
  | Make _ => ["Type"; "Object"; "Proxy"; "taskd"]
  | Object_init _ _ => ["Type"; "Object"; "Proxy"]
  | View_init _ _ => ["Proxy"; "taskd"]
  | View_attach _ _ => ["ViewObject"; "Object"; "standard"]
  | View_updateData _ _ _ => ["NeedsCaseRewrite"]
  | View_setEdit _ _ _ => ["obj"]
  | _ => []
  end.

(** [e] assigns nothing, or an attribute of [writes op] that is not a
    declared property. *)
Definition assigns_within (op : Operation) (e : Event) : bool :=
  match e with
  | ESetAttr _ a _ =>
      existsb (String.eqb a) (writes op)
      && match property a with Some _ => false | None => true end
  | _ => true
  end.

(** [e] loads no module, calls no method and assigns nothing. *)
Definition quiet (e : Event) : Prop :=
  match e with
  | EImport _ | EMethod _ _ _ | ESetAttr _ _ _ => False
  | _ => True
  end.

(** ** The vector constructor as the call it is *)

(** [FreeCAD.Vector(x, y, z)] is a call into the host, made while the
    arguments of [addObjectProperty] are evaluated, just before the
    declaration it belongs to.  The functions above take the constructor
    at its word and write the vector it builds.  The four functions that
    reach the constructor are given again here with the call recorded and
    its answer passed on; [construct] relates the two readings. *)
Definition Vector (x y z : Z) : Prog PyVal :=
  call "FreeCAD.Vector" [VInt x; VInt y; VInt z].

Module Recorded.

Definition initProperties (self obj : PyVal) : Prog PyVal :=
  (* Setup and utility *)
  addObjectProperty obj "ReportingFunctionType" (VList (VStr <$> OBJECT_NAMES))
    "App::PropertyEnumeration" "" "Type of reporting function";;
  addObjectProperty obj "Patch" VNone
    "App::PropertyLink" "Function object"
    "Patch on which to create the function object";;
  (* Forces *)
  addObjectProperty obj "ReferenceDensity" (VStr "1 kg/m^3")
    "App::PropertyQuantity" "Forces" "Reference density";;
  addObjectProperty obj "ReferencePressure" (VStr "0 Pa")
    "App::PropertyPressure" "Forces" "Reference pressure";;
  centre ← Vector 0 0 0;
  addObjectProperty obj "CentreOfRotation" centre
    "App::PropertyPosition" "Forces" "Centre of rotation";;
  addObjectProperty obj "WriteFields" (VBool false)
    "App::PropertyBool" "Forces" "Whether to write output fields";;
  (* Force coefficients *)
  lift ← Vector 1 0 0;
  addObjectProperty obj "Lift" lift
    "App::PropertyVector" "Force coefficients" "Lift direction (x component)";;
  drag ← Vector 0 1 0;
  addObjectProperty obj "Drag" drag
    "App::PropertyVector" "Force coefficients" "Drag direction";;
  pitch ← Vector 0 0 1;
  addObjectProperty obj "Pitch" pitch
    "App::PropertyVector" "Force coefficients" "Centre of pitch";;
  addObjectProperty obj "MagnitudeUInf" (VStr "1 m/s")
    "App::PropertyQuantity" "Force coefficients"
    "Freestream velocity magnitude";;
  addObjectProperty obj "LengthRef" (VStr "1 m")
    "App::PropertyQuantity" "Force coefficients"
    "Coefficient length reference";;
  addObjectProperty obj "AreaRef" (VStr "1 m^2")
    "App::PropertyQuantity" "Force coefficients"
    "Coefficient area reference";;
  (* Spatial binning *)
  addObjectProperty obj "NBins" (VInt 0)
    "App::PropertyInteger" "Forces" "Number of bins";;
  direction ← Vector 1 0 0;
  addObjectProperty obj "Direction" direction
    "App::PropertyVector" "Forces" "Binning direction";;
  addObjectProperty obj "Cumulative" (VBool true)
    "App::PropertyBool" "Forces" "Cumulative";;
  (* Probes *)
  addObjectProperty obj "SampleFieldName" (VStr "p")
    "App::PropertyString" "Probes" "Name of the field to sample";;
  position ← Vector 0 0 0;
  addObjectProperty obj "ProbePosition" position
    "App::PropertyPosition" "Probes"
    "Location of the probe sample location";;
  mret VNone.

Definition __init__ (self obj : PyVal) : Prog PyVal :=
  setattr self "Type" (VStr "ReportingFunction");;
  setattr self "Object" obj;;
  setattr obj "Proxy" self;;
  initProperties self obj;;
  mret VNone.

Definition onDocumentRestored (self obj : PyVal) : Prog PyVal :=
  initProperties self obj;;
  mret VNone.

Definition makeCfdReportingFunctions (name : option string) : Prog PyVal :=
  let name := default "ReportingFunction" name in
  obj ← call "FreeCAD.ActiveDocument.addObject"
          [VStr "Part::FeaturePython"; VStr name];
  instantiate "_CfdReportingFunctions" (fun self => __init__ self obj);;
  gui_up ← global "FreeCAD.GuiUp";
  (if truthy gui_up then
     view_object ← getattr obj "ViewObject";
     instantiate "_ViewProviderCfdReportingFunctions"
       (fun self => _ViewProviderCfdReportingFunctions.__init__ self view_object)
   else mret VNone);;
  mret obj.

(** Every function of the file, the constructor calls recorded. *)
Definition body (op : Operation) : Prog PyVal :=
  match op with
  | Make name => makeCfdReportingFunctions name
  | Object_init self obj => __init__ self obj
  | Object_initProperties self obj => initProperties self obj
  | Object_onDocumentRestored self obj => onDocumentRestored self obj
  | _ => body op
  end.

End Recorded.

(** The vector a constructor call builds. *)
Definition vector_of (e : Event) : option PyVal :=
  match e with
  | ECall f args =>
      if String.eqb f "FreeCAD.Vector" then
        match args with
        | [VInt x; VInt y; VInt z] => Some (VVector x y z)
        | _ => None
        end
      else None
  | _ => None
  end.

(** [p] with every constructor call replaced by the vector it builds. *)
Fixpoint construct {A} (p : Prog A) : Prog A :=
  match p with
  | Ret a => Ret a
  | Do e k =>
      match vector_of e with
      | Some v => construct (k v)
      | None => Do e (fun a => construct (k a))
      end
  end.

(** [host] with the constructor: a constructor call is answered with the
    vector and leaves the state alone; everything else is left to [host]. *)
Definition with_vectors {H} (host : Event -> H -> Outcome PyVal * H)
    (e : Event) (h : H) : Outcome PyVal * H :=
  match vector_of e with
  | Some v => (Returned v, h)
  | None => host e h
  end.

(** A record without its constructor calls. *)
Definition erase (tr : list Entry) : list Entry :=
  List.filter (fun entry => match vector_of (event entry) with
                            | Some _ => false
                            | None => true
                            end) tr.

(** Two programs that perform the same interactions and return the same
    value, whatever the host answers. *)
Fixpoint similar {A} (p q : Prog A) : Prop :=
  match p, q with
  | Ret a, Ret b => a = b
  | Do e k, Do e' k' => e = e' /\ forall v, similar (k v) (k' v)
  | _, _ => False
  end.

(** *** The calls of [initProperties], from the table *)

(** The constructor call a row needs before it can be declared. *)
Definition construction (p : Property) : list Event :=
  match pdefault p with
  | VVector x y z => [ECall "FreeCAD.Vector" [VInt x; VInt y; VInt z]]
  | _ => []
  end.

(** The calls of the rows, in order. *)
Definition calls (obj : PyVal) (ps : list Property) : list Event :=
  flat_map (fun p => construction p ++ [declare obj p]) ps.

Definition with_default (p : Property) (v : PyVal) : Property :=
  {| pname := pname p; pdefault := v; ptype := ptype p;
     pgroup := pgroup p; pdoc := pdoc p |}.

(** The declarations of a list of rows, a vector default being built by
    the host first. *)
Fixpoint declare_rows (obj : PyVal) (ps : list Property) : Prog PyVal :=
  match ps with
  | [] => Ret VNone
  | p :: ps =>
      match pdefault p with
      | VVector x y z =>
          Do (ECall "FreeCAD.Vector" [VInt x; VInt y; VInt z])
             (fun v => Do (declare obj (with_default p v))
                          (fun _ => declare_rows obj ps))
      | _ => Do (declare obj p) (fun _ => declare_rows obj ps)
      end
  end.

(** *** Where the values come from *)

(** The values an interaction hands to the host. *)
Definition handed (e : Event) : list PyVal :=
  match e with
  | EGlobal _ | ENew _ | EImport _ => []
  | ECall _ args => args
  | EMethod recv _ args => recv :: args
  | EGetAttr o _ => [o]
  | ESetAttr o _ v => [o; v]
  end.

(** A value that is written down, not computed: [None], a truth value, a
    text, one of the two integers the source writes, a list of texts.
    Vectors, modules, objects and dictionaries are no literals. *)
Definition literal (v : PyVal) : bool :=
  match v with
  | VNone | VBool _ | VStr _ => true
  | VInt n => (n =? 0)%Z || (n =? 1)%Z
  | VList items =>
      forallb (fun i => match i with VStr _ => true | _ => false end) items
  | VDict _ | VVector _ _ _ | VModule _ | VRef _ => false
  end.


(** The values the host has answered with in a record. *)
Definition answered (tr : list Entry) : list PyVal :=
  omap (fun entry => match answer entry with
                     | Returned v => Some v
                     | Raised _ => None
                     end) tr.

(** [r] is a literal, one of the [known] values, or a dictionary of
    [known] values. *)
Definition derived (known : list PyVal) (r : PyVal) : Prop :=
  literal r = true \/ In r known \/
  exists entries,
    r = VDict entries /\ Forall (fun entry => In (snd entry) known) entries.

(** Whatever the host answers, [p] hands over only literals, [known]
    values and earlier answers, and returns such a value. *)
Fixpoint hands_on (known : list PyVal) (p : Prog PyVal) : Prop :=
  match p with
  | Ret r => derived known r
  | Do e k =>
      Forall (fun v => literal v = true \/ In v known) (handed e) /\
      forall v, hands_on (v :: known) (k v)
  end.

(** The statements [Activated] sends to the console. *)
Definition console_statements : list string :=
  [ "from CfdOF.PostProcess import CfdReportingFunctions";
    "from CfdOF import CfdTools";
    "CfdTools.getActiveAnalysis().addObject(CfdReportingFunctions.makeCfdReportingFunctions())" ].

(** [e] is no console command, or the command of one of these statements. *)
Definition sends_statement (e : Event) : bool :=
  match e with
  | ECall f args =>
      if String.eqb f "FreeCADGui.doCommand" then
        match args with
        | [VStr text] => existsb (String.eqb text) console_statements
        | _ => false
        end
      else true
  | _ => true
  end.


(** ** A host that replays a script *)

(** Each interaction is answered with the next value of the script; the
    host raises once the script is exhausted. *)
Definition replay (e : Event) (script : list PyVal)
  : Outcome PyVal * list PyVal :=
  match script with
  | v :: rest => (Returned v, rest)
  | [] => (Raised (VStr "StopIteration"), [])
  end.

(** * Properties *)

Section Runs.

Context {H : Type} (host : Event -> H -> Outcome PyVal * H).

(** ** The interpreter *)

Lemma interp_Ret {A} (a : A) (h : H) :
  interp host (Ret a) h = {| outcome := Returned a; final := h; trace := [] |}.
Proof. reflexivity. Qed.

Lemma interp_Do {A} (e : Event) (k : PyVal -> Prog A) (h : H) :
  interp host (Do e k) h =
    match host e h with
    | (Returned v, h') =>
        {| outcome := outcome (interp host (k v) h');
           final := final (interp host (k v) h');
           trace := ask e v :: trace (interp host (k v) h') |}
    | (Raised x, h') =>
        {| outcome := Raised x; final := h';
           trace := [{| event := e; answer := Raised x |}] |}
    end.
Proof. reflexivity. Qed.

Lemma interp_bind {A B} (p : Prog A) (f : A -> Prog B) (h : H) :
  interp host (bind p f) h =
    let r := interp host p h in
    match outcome r with
    | Returned a =>
        let r' := interp host (f a) (final r) in
        {| outcome := outcome r'; final := final r';
           trace := trace r ++ trace r' |}
    | Raised x =>
        {| outcome := Raised x; final := final r; trace := trace r |}
    end.
Proof.
  revert h; induction p as [a | e k IH]; intros h; simpl.
  - now destruct (interp host (f a) h).
  - destruct (host e h) as [[v | x] h']; simpl; [ | reflexivity ].
    rewrite IH; simpl.
    now destruct (outcome (interp host (k v) h')).
Qed.

(** A run that returned was answered at its first interaction, and is the
    run of the continuation after it. *)
Lemma interp_Do_returned {A} (e : Event) (k : PyVal -> Prog A) (h : H) (a : A) :
  outcome (interp host (Do e k) h) = Returned a ->
  exists v h',
    host e h = (Returned v, h') /\
    outcome (interp host (k v) h') = Returned a /\
    final (interp host (Do e k) h) = final (interp host (k v) h') /\
    trace (interp host (Do e k) h) = ask e v :: trace (interp host (k v) h').
Proof.
  simpl; destruct (host e h) as [[v | x] h'] eqn:E; simpl; [ | discriminate ].
  intros Hret; exists v, h'; auto.
Qed.

(** Against a host that raises on nothing, every program returns. *)
Lemma interp_returns {A} (p : Prog A) (h : H) :
  never_raises host -> exists a, outcome (interp host p h) = Returned a.
Proof.
  intros Hquiet; revert h; induction p as [a | e k IH]; intros h; simpl.
  - now exists a.
  - destruct (Hquiet e h) as (v & h' & ->); simpl. apply IH.
Qed.

(** What holds of every interaction of a program holds of every record. *)
Lemma always_trace {A} (P : Event -> Prop) (p : Prog A) (h : H) :
  always P p -> Forall P (events (trace (interp host p h))).
Proof.
  revert h; induction p as [a | e k IH]; intros h; simpl.
  - constructor.
  - intros [He Hk]. destruct (host e h) as [[v | x] h']; simpl.
    + constructor; [ exact He | apply IH, Hk ].
    + constructor; [ exact He | constructor ].
Qed.

End Runs.

(** Runs are unfolded one interaction at a time, by [interp_Do_returned]. *)
Arguments interp : simpl never.

(** ** The document object: _CfdReportingFunctions *)

Section DocumentObject.

Context {H : Type} (host : Event -> H -> Outcome PyVal * H).

Import _CfdReportingFunctions.

(** [initProperties] is the table, row by row. *)
Lemma initProperties_table (self obj : PyVal) :
  initProperties self obj = declare_all obj reporting_function_properties.
Proof. reflexivity. Qed.

Lemma declare_all_run (obj : PyVal) (ps : list Property) (h : H) :
  (forall p h', In p ps -> exists v h'', host (declare obj p) h' = (Returned v, h'')) ->
  outcome (interp host (declare_all obj ps) h) = Returned VNone /\
  events (trace (interp host (declare_all obj ps) h)) = declare obj <$> ps.
Proof.
  revert h; induction ps as [ | p ps IH]; intros h Hok.
  - split; reflexivity.
  - destruct (Hok p h (or_introl eq_refl)) as (v & h' & E).
    destruct (IH h' (fun q hq Hq => Hok q hq (or_intror Hq))) as [IHo IHt].
    change (declare_all obj (p :: ps))
      with (Do (declare obj p) (fun _ => declare_all obj ps)).
    rewrite interp_Do, E. cbn. rewrite IHo. unfold events in IHt.
    now rewrite IHt.
Qed.

(** C1: for every document object [obj], [initProperties] declares the
    typed properties of the reporting function.  Against any host whose
    [addObjectProperty] returns on these declarations, it returns [None]
    after exactly the seventeen declarations of the table, in order;
    the first one declares [ReportingFunctionType] as an enumeration
    over [OBJECT_NAMES], that is [Force], [ForceCoefficients], [Probes];
    the groups [Forces] (with the spatial-binning rows), [Force
    coefficients] and [Probes] hold the rows the source gives them; and
    [onDocumentRestored] is the very same run. *)
Theorem initProperties_declares (self obj : PyVal) (h : H) :
  (forall p h', In p reporting_function_properties ->
     exists v h'', host (declare obj p) h' = (Returned v, h'')) ->
  outcome (interp host (initProperties self obj) h) = Returned VNone /\
  events (trace (interp host (initProperties self obj) h))
    = declare obj <$> reporting_function_properties /\
  head (events (trace (interp host (initProperties self obj) h)))
    = Some (ECall "CfdTools.addObjectProperty"
              [obj; VStr "ReportingFunctionType";
               VList (VStr <$> OBJECT_NAMES);
               VStr "App::PropertyEnumeration"; VStr "";
               VStr "Type of reporting function"]) /\
  OBJECT_NAMES = ["Force"; "ForceCoefficients"; "Probes"] /\
  group_members "Forces"
    = ["ReferenceDensity"; "ReferencePressure"; "CentreOfRotation";
       "WriteFields"; "NBins"; "Direction"; "Cumulative"] /\
  group_members "Force coefficients"
    = ["Lift"; "Drag"; "Pitch"; "MagnitudeUInf"; "LengthRef"; "AreaRef"] /\
  group_members "Probes" = ["SampleFieldName"; "ProbePosition"] /\
  interp host (onDocumentRestored self obj) h
    = interp host (initProperties self obj) h.
Proof.
  intros Hok.
  destruct (declare_all_run obj reporting_function_properties h Hok)
    as [Hout Htr].
  rewrite initProperties_table.
  split; [ exact Hout | ].
  split; [ exact Htr | ].
  split; [ now rewrite Htr | ].
  repeat split; reflexivity.
Qed.

(** C3: [execute] is a no-op.  Against every host and from every state
    it returns [None] without a single interaction (no call, no
    attribute read or written), and the state of the host, which holds
    [obj] and the proxy, is the one it started from. *)
Theorem execute_noop (self obj : PyVal) (h : H) :
  execute self obj = Ret VNone /\
  interp host (execute self obj) h
    = {| outcome := Returned VNone; final := h; trace := [] |}.
Proof. split; reflexivity. Qed.

End DocumentObject.

(** ** Values *)

Lemma is_none_true (v : PyVal) : is_none v = true <-> v = VNone.
Proof. destruct v; simpl; split; intros E; try discriminate; reflexivity. Qed.

Lemma is_none_false (v : PyVal) : is_none v = false <-> v <> VNone.
Proof.
  destruct v; simpl; split; intros E; try discriminate; try reflexivity;
    congruence.
Qed.

(** ** The view provider: _ViewProviderCfdReportingFunctions *)

(** A run that has reached its [return]. *)
Ltac finished Hrun :=
  cbn in Hrun |- *;
  unfold mret, prog_ret in Hrun |- *;
  rewrite ?interp_Ret in Hrun;
  rewrite ?interp_Ret;
  cbn in Hrun |- *.

(** One interaction of a run that returned: the host answered it, and
    the rest of the run is the run of the continuation. *)
Ltac answered Hrun :=
  let v := fresh "v" in
  let h' := fresh "h" in
  let E := fresh "E" in
  let Hfinal := fresh "Hfinal" in
  let Htrace := fresh "Htrace" in
  apply interp_Do_returned in Hrun as (v & h' & E & Hrun & Hfinal & Htrace);
  rewrite ?Htrace, ?Hfinal; clear Htrace Hfinal;
  finished Hrun.

Section ViewProvider.

Context {H : Type} (host : Event -> H -> Outcome PyVal * H).

Import _ViewProviderCfdReportingFunctions.

(** C4: [__getstate__] of both classes returns [None], and
    [__setstate__] of both classes returns [None] for every state
    argument; none of the four interacts with anything, so the instance
    and the host are as they were. *)
Theorem getstate_setstate_none (self state : PyVal) (h : H) :
  interp host (_CfdReportingFunctions.__getstate__ self) h
    = {| outcome := Returned VNone; final := h; trace := [] |} /\
  interp host (_CfdReportingFunctions.__setstate__ self state) h
    = {| outcome := Returned VNone; final := h; trace := [] |} /\
  interp host (__getstate__ self) h
    = {| outcome := Returned VNone; final := h; trace := [] |} /\
  interp host (__setstate__ self state) h
    = {| outcome := Returned VNone; final := h; trace := [] |}.
Proof. repeat split. Qed.

(** C6: the display-mode methods are stubs: [getDisplayModes] returns
    the empty list for every [obj], [setDisplayMode] returns its
    argument for every [mode]; neither interacts with the host. *)
Theorem display_mode_stubs (self obj mode : PyVal) (h : H) :
  interp host (getDisplayModes self obj) h
    = {| outcome := Returned (VList []); final := h; trace := [] |} /\
  interp host (setDisplayMode self mode) h
    = {| outcome := Returned mode; final := h; trace := [] |}.
Proof. split; reflexivity. Qed.

(** C5: [setEdit] only delegates.  In a run that returns, it reads
    [self.Object] and asks [CfdTools] for the parent analysis.  When
    that is [None] it shows the error box with the message "Reporting
    function must have a parent analysis object" and returns [False]:
    nothing else happens, no dialog is opened.  Otherwise it loads the
    task panel module, constructs the task panel for [self.Object],
    shows the view object, hands the panel [vobj.Object], shows the
    dialog with that panel and returns [True]. *)
Theorem setEdit_delegates (self vobj mode : PyVal) (h : H) (r : PyVal) :
  outcome (interp host (setEdit self vobj mode) h) = Returned r ->
  exists object analysis,
    (analysis = VNone /\ r = VBool false /\
     exists u,
       trace (interp host (setEdit self vobj mode) h) =
         [ ask (EGetAttr self "Object") object;
           ask (ECall "CfdTools.getParentAnalysisObject" [object]) analysis;
           ask (ECall "CfdTools.cfdErrorBox"
                  [VStr "Reporting function must have a parent analysis object"])
               u ])
    \/
    (analysis <> VNone /\ r = VBool true /\
     exists panel importlib u1 object1 taskd object2 view u2 object3 u3 u4,
       trace (interp host (setEdit self vobj mode) h) =
         [ ask (EGetAttr self "Object") object;
           ask (ECall "CfdTools.getParentAnalysisObject" [object]) analysis;
           ask (EImport "CfdOF.PostProcess.TaskPanelCfdReportingFunctions")
               panel;
           ask (EImport "importlib") importlib;
           ask (ECall "importlib.reload" [panel]) u1;
           ask (EGetAttr self "Object") object1;
           ask (EMethod panel "TaskPanelCfdReportingFunctions" [object1])
               taskd;
           ask (EGetAttr self "Object") object2;
           ask (EGetAttr object2 "ViewObject") view;
           ask (EMethod view "show" []) u2;
           ask (EGetAttr vobj "Object") object3;
           ask (ESetAttr taskd "obj" object3) u3;
           ask (ECall "FreeCADGui.Control.showDialog" [taskd]) u4 ]).
Proof.
  intros Hrun. unfold setEdit in *. cbn in Hrun |- *.
  do 2 answered Hrun.
  exists v, v0.
  destruct (is_none v0) eqn:Hnone; finished Hrun.
  - left. answered Hrun.
    apply is_none_true in Hnone. injection Hrun as <-.
    split; [ assumption | ]. split; [ reflexivity | ].
    exists v1; reflexivity.
  - right. do 11 answered Hrun.
    apply is_none_false in Hnone. injection Hrun as <-.
    split; [ assumption | ]. split; [ reflexivity | ].
    exists v1, v2, v3, v4, v5, v6, v7, v8, v9, v10, v11; reflexivity.
Qed.

(** C9: [updateData] marks the parent analysis for a case rewrite.  In a
    run that returns (it returns [None]) it first asks [CfdTools] for the
    parent analysis of [obj], whatever [prop] is.  When there is one and
    its proxy is not loading, the last thing the run does is to set
    [NeedsCaseRewrite] of the analysis to [True]; when there is none, or
    its proxy is loading, the run only reads.  No other attribute is ever
    written: in particular none of [obj], which is not its own parent
    analysis. *)
Theorem updateData_marks_analysis (self obj prop : PyVal) (h : H) (r : PyVal) :
  outcome (interp host (updateData self obj prop) h) = Returned r ->
  r = VNone /\
  exists analysis,
    ((truthy analysis = false /\
      trace (interp host (updateData self obj prop) h) =
        [ ask (ECall "CfdTools.getParentAnalysisObject" [obj]) analysis ])
     \/
     (truthy analysis = true /\
      exists proxy loading,
        (truthy loading = true /\
         trace (interp host (updateData self obj prop) h) =
           [ ask (ECall "CfdTools.getParentAnalysisObject" [obj]) analysis;
             ask (EGetAttr analysis "Proxy") proxy;
             ask (EGetAttr proxy "loading") loading ])
        \/
        (truthy loading = false /\
         exists u,
           trace (interp host (updateData self obj prop) h) =
             [ ask (ECall "CfdTools.getParentAnalysisObject" [obj]) analysis;
               ask (EGetAttr analysis "Proxy") proxy;
               ask (EGetAttr proxy "loading") loading;
               ask (ESetAttr analysis "NeedsCaseRewrite" (VBool true)) u ])))
    /\
    (forall o a v,
       In (ESetAttr o a v) (events (trace (interp host (updateData self obj prop) h))) ->
       o = analysis /\ a = "NeedsCaseRewrite" /\ v = VBool true) /\
    (analysis <> obj ->
     forall a v,
       ~ In (ESetAttr obj a v)
            (events (trace (interp host (updateData self obj prop) h)))).
Proof.
  intros Hrun. unfold updateData in *. cbn in Hrun |- *.
  answered Hrun. rename v into analysis.
  assert (Hwrites : forall evs : list Event,
    (forall o a w, In (ESetAttr o a w) evs ->
       o = analysis /\ a = "NeedsCaseRewrite" /\ w = VBool true) ->
    analysis <> obj -> forall a w, ~ In (ESetAttr obj a w) evs).
  { intros evs Honly Hne a w Hin. destruct (Honly _ _ _ Hin) as [Heq _].
    now apply Hne. }
  destruct (truthy analysis) eqn:Hparent; finished Hrun.
  - do 2 answered Hrun. rename v into proxy, v0 into loading.
    destruct (truthy loading) eqn:Hloading; finished Hrun.
    + injection Hrun as <-. split; [ reflexivity | ]. exists analysis.
      assert (Honly : forall o a w,
        In (ESetAttr o a w)
           [ECall "CfdTools.getParentAnalysisObject" [obj];
            EGetAttr analysis "Proxy"; EGetAttr proxy "loading"] ->
        o = analysis /\ a = "NeedsCaseRewrite" /\ w = VBool true).
      { intros o a w [X | [X | [X | []]]]; discriminate X. }
      split; [ right; split; [ exact Hparent | ]; exists proxy, loading; left;
               split; [ assumption | reflexivity ] | ].
      split; [ exact Honly | ].
      exact (Hwrites _ Honly).
    + answered Hrun. injection Hrun as <-. split; [ reflexivity | ].
      exists analysis.
      assert (Honly : forall o a w,
        In (ESetAttr o a w)
           [ECall "CfdTools.getParentAnalysisObject" [obj];
            EGetAttr analysis "Proxy"; EGetAttr proxy "loading";
            ESetAttr analysis "NeedsCaseRewrite" (VBool true)] ->
        o = analysis /\ a = "NeedsCaseRewrite" /\ w = VBool true).
      { intros o a w [X | [X | [X | [X | []]]]]; try discriminate X.
        now injection X as <- <- <-. }
      split; [ right; split; [ exact Hparent | ]; exists proxy, loading; right;
               split; [ assumption | ]; exists v; reflexivity | ].
      split; [ exact Honly | ].
      exact (Hwrites _ Honly).
  - injection Hrun as <-. split; [ reflexivity | ]. exists analysis.
    assert (Honly : forall o a w,
      In (ESetAttr o a w) [ECall "CfdTools.getParentAnalysisObject" [obj]] ->
      o = analysis /\ a = "NeedsCaseRewrite" /\ w = VBool true).
    { intros o a w [X | []]; discriminate X. }
    split; [ left; split; [ exact Hparent | reflexivity ] | ].
    split; [ exact Honly | ].
    exact (Hwrites _ Honly).
Qed.

(** The one display mode [attach] can register is "Standard", whatever
    the host answers and even when it raises. *)
Lemma attach_registers_Standard (self vobj : PyVal) (h : H) :
  forall recv args,
    In (EMethod recv "addDisplayMode" args)
       (events (trace (interp host (attach self vobj) h))) ->
    exists node, recv = vobj /\ args = [node; VStr "Standard"].
Proof.
  intros recv args Hin.
  assert (Hall : always
            (fun e => forall recv args, e = EMethod recv "addDisplayMode" args ->
               exists node, recv = vobj /\ args = [node; VStr "Standard"])
            (attach self vobj)).
  { cbn. repeat (split; [ intros ? ? X; try discriminate X | intros ? ]);
      [ | exact I ].
    injection X as <- <-. eauto. }
  apply (always_trace host _ _ h) in Hall.
  rewrite Forall_forall in Hall. apply list_elem_of_In in Hin.
  exact (Hall _ Hin _ _ eq_refl).
Qed.

(** C10: [getDefaultDisplayMode] always returns "Shaded".  That name is
    not in the list [getDisplayModes] returns, which is empty, and it is
    not the name [attach] registers: [attach] registers "Standard" and
    nothing else, once in a run that returns.  So the default display
    mode is none of the declared ones. *)
Theorem default_display_mode_undeclared (self vobj obj : PyVal) (h : H) :
  interp host (getDefaultDisplayMode self) h
    = {| outcome := Returned (VStr "Shaded"); final := h; trace := [] |} /\
  (exists modes,
     outcome (interp host (getDisplayModes self obj) h) = Returned (VList modes) /\
     ~ In (VStr "Shaded") modes) /\
  (forall recv args,
     In (EMethod recv "addDisplayMode" args)
        (events (trace (interp host (attach self vobj) h))) ->
     exists node, args = [node; VStr "Standard"] /\
                  args <> [node; VStr "Shaded"]) /\
  (forall r,
     outcome (interp host (attach self vobj) h) = Returned r ->
     exists u1 object u2 group u3 standard u4,
       trace (interp host (attach self vobj) h) =
         [ ask (ESetAttr self "ViewObject" vobj) u1;
           ask (EGetAttr vobj "Object") object;
           ask (ESetAttr self "Object" object) u2;
           ask (ECall "coin.SoGroup" []) group;
           ask (ESetAttr self "standard" group) u3;
           ask (EGetAttr self "standard") standard;
           ask (EMethod vobj "addDisplayMode" [standard; VStr "Standard"]) u4 ]).
Proof.
  split; [ reflexivity | ].
  split; [ exists []; split; [ reflexivity | intros [] ] | ].
  split.
  - intros recv args Hin.
    destruct (attach_registers_Standard self vobj h recv args Hin)
      as (node & _ & ->).
    exists node. split; [ reflexivity | discriminate ].
  - intros r Hrun. unfold attach in *. cbn in Hrun |- *.
    do 7 answered Hrun.
    exists v, v0, v1, v2, v3, v4, v5. reflexivity.
Qed.

End ViewProvider.

(** ** The factory and the menu command *)

Section Command.

Context {H : Type} (host : Event -> H -> Outcome PyVal * H).

Import _CommandCfdReportingFunctions.

(** C8: [IsActive] returns [True] exactly when [CfdTools.getActiveAnalysis()]
    is not [None].  Whenever the helper answers, [IsActive] returns the
    boolean [analysis is not None] after that single call. *)
Theorem IsActive_iff_analysis (self : PyVal) (h h' : H) (analysis : PyVal) :
  host (ECall "CfdTools.getActiveAnalysis" []) h = (Returned analysis, h') ->
  interp host (IsActive self) h
    = {| outcome := Returned (VBool (negb (is_none analysis)));
         final := h';
         trace := [ ask (ECall "CfdTools.getActiveAnalysis" []) analysis ] |} /\
  (outcome (interp host (IsActive self) h) = Returned (VBool true)
   <-> analysis <> VNone).
Proof.
  intros E.
  assert (Hrun : interp host (IsActive self) h
            = {| outcome := Returned (VBool (negb (is_none analysis)));
                 final := h';
                 trace := [ ask (ECall "CfdTools.getActiveAnalysis" []) analysis ] |}).
  { unfold IsActive. cbn. rewrite interp_Do, E. reflexivity. }
  split; [ exact Hrun | ].
  rewrite Hrun; cbn. rewrite <- is_none_false.
  destruct (is_none analysis); cbn; split; congruence.
Qed.

(** C2: [makeCfdReportingFunctions(name)], in a run that returns: asks the
    active document for a new "Part::FeaturePython" object called [name]
    ("ReportingFunction" when no name is given); creates a
    [_CfdReportingFunctions] instance and makes it the [Proxy] of that
    object, which then receives the declarations of [initProperties];
    reads [FreeCAD.GuiUp] and, exactly when it is true, creates a
    [_ViewProviderCfdReportingFunctions] instance and makes it the [Proxy]
    of the object's [ViewObject]; and returns the object the document
    answered with.  The menu command's [Activated], in a run that returns,
    opens a transaction, sends the console the two imports and the
    statement that calls [makeCfdReportingFunctions()] and hands the
    result to [addObject] of the active analysis, then puts the active
    object of the document in edit mode. *)
Theorem makeCfdReportingFunctions_creates
    (name : option string) (self : PyVal) (h h2 : H) (obj r2 : PyVal) :
  outcome (interp host (makeCfdReportingFunctions name) h) = Returned obj ->
  outcome (interp host (Activated self) h2) = Returned r2 ->
  (exists proxy u1 u2 u3 declarations gui_up view,
     trace (interp host (makeCfdReportingFunctions name) h) =
       ask (ECall "FreeCAD.ActiveDocument.addObject"
              [VStr "Part::FeaturePython";
               VStr (default "ReportingFunction" name)]) obj
       :: ask (ENew "_CfdReportingFunctions") proxy
       :: ask (ESetAttr proxy "Type" (VStr "ReportingFunction")) u1
       :: ask (ESetAttr proxy "Object" obj) u2
       :: ask (ESetAttr obj "Proxy" proxy) u3
       :: declarations ++ ask (EGlobal "FreeCAD.GuiUp") gui_up :: view /\
     events declarations = declare obj <$> reporting_function_properties /\
     (truthy gui_up = true ->
      exists view_object provider u4 u5,
        view = [ ask (EGetAttr obj "ViewObject") view_object;
                 ask (ENew "_ViewProviderCfdReportingFunctions") provider;
                 ask (ESetAttr view_object "Proxy" provider) u4;
                 ask (ESetAttr provider "taskd" VNone) u5 ]) /\
     (truthy gui_up = false -> view = [])) /\
  r2 = VNone /\
  (exists u1 u2 u3 u4 active_name u5,
     trace (interp host (Activated self) h2) =
       [ ask (ECall "FreeCAD.ActiveDocument.openTransaction"
                [VStr "Create CfdReportingFunctions object"]) u1;
         ask (ECall "FreeCADGui.doCommand"
                [VStr "from CfdOF.PostProcess import CfdReportingFunctions"]) u2;
         ask (ECall "FreeCADGui.doCommand"
                [VStr "from CfdOF import CfdTools"]) u3;
         ask (ECall "FreeCADGui.doCommand"
                [VStr "CfdTools.getActiveAnalysis().addObject(CfdReportingFunctions.makeCfdReportingFunctions())"]) u4;
         ask (EGlobal "FreeCAD.ActiveDocument.ActiveObject.Name") active_name;
         ask (ECall "FreeCADGui.ActiveDocument.setEdit" [active_name]) u5 ]).
Proof.
  intros Hmake Hact. split; [ | split ].
  - unfold makeCfdReportingFunctions in *. cbn in Hmake |- *.
    do 23 answered Hmake.
    exists v0, v1, v2, v3.
    exists (zip_with ask (declare v <$> reporting_function_properties)
              [v4; v5; v6; v7; v8; v9; v10; v11; v12; v13; v14; v15; v16;
               v17; v18; v19; v20]).
    exists v21.
    destruct (truthy v21) eqn:Hgui; finished Hmake.
    + do 4 answered Hmake. injection Hmake as <-.
      eexists. split; [ reflexivity | ]. split; [ reflexivity | ].
      split; [ intros _; exists v22, v23, v24, v25; reflexivity
             | discriminate ].
    + injection Hmake as <-.
      exists []. split; [ reflexivity | ]. split; [ reflexivity | ].
      split; [ discriminate | reflexivity ].
  - unfold Activated in *. cbn in Hact. do 6 answered Hact. congruence.
  - unfold Activated in *. cbn in Hact |- *. do 6 answered Hact.
    exists v, v0, v1, v2, v3, v4. reflexivity.
Qed.

End Command.

(** * The theorems at work on the reference host *)

(** Each statement below is one of the theorems above on the reference
    host, at a document in which the menu command has created a reporting
    function: its hypotheses hold there, so what it concludes is a fact
    about that run. *)

Section ReferenceRuns.

Import _CfdReportingFunctions _CommandCfdReportingFunctions.
Import _ViewProviderCfdReportingFunctions.

(** Restoring the created object declares the seventeen properties again. *)
Lemma initProperties_declares_reference :
  let host := Reference.host in
  let h := Reference.activated in
  let self := VRef 5 in
  let obj := VRef 3 in
  ((forall p h', In p reporting_function_properties ->
     exists v h'', host (declare obj p) h' = (Returned v, h''))) /\
  (outcome (interp host (initProperties self obj) h) = Returned VNone /\
  events (trace (interp host (initProperties self obj) h))
    = declare obj <$> reporting_function_properties /\
  head (events (trace (interp host (initProperties self obj) h)))
    = Some (ECall "CfdTools.addObjectProperty"
              [obj; VStr "ReportingFunctionType";
               VList (VStr <$> OBJECT_NAMES);
               VStr "App::PropertyEnumeration"; VStr "";
               VStr "Type of reporting function"]) /\
  OBJECT_NAMES = ["Force"; "ForceCoefficients"; "Probes"] /\
  group_members "Forces"
    = ["ReferenceDensity"; "ReferencePressure"; "CentreOfRotation";
       "WriteFields"; "NBins"; "Direction"; "Cumulative"] /\
  group_members "Force coefficients"
    = ["Lift"; "Drag"; "Pitch"; "MagnitudeUInf"; "LengthRef"; "AreaRef"] /\
  group_members "Probes" = ["SampleFieldName"; "ProbePosition"] /\
  interp host (onDocumentRestored self obj) h
    = interp host (initProperties self obj) h).
Proof.
  intros host h self obj.
  assert (Hok : forall p h', In p reporting_function_properties ->
            exists v h'', host (declare obj p) h' = (Returned v, h'')).
  { intros p h' _. subst host obj. cbn.
    destruct (Reference.add_property _ _ h') as [added h'']. eauto. }
  split; [ exact Hok | ].
  exact (initProperties_declares host self obj h Hok).
Defined.

(** Creating the reporting function in a fresh document, GUI up. *)
Lemma makeCfdReportingFunctions_creates_reference :
  let host := Reference.host in
  let name := @None string in
  let self := VNone in
  let h := Reference.document true false in
  let h2 := Reference.document true false in
  let obj := VRef 3 in
  let r2 := VNone in
  (outcome (interp host (makeCfdReportingFunctions name) h) = Returned obj) /\
  (outcome (interp host (Activated self) h2) = Returned r2) /\
  ((exists proxy u1 u2 u3 declarations gui_up view,
     trace (interp host (makeCfdReportingFunctions name) h) =
       ask (ECall "FreeCAD.ActiveDocument.addObject"
              [VStr "Part::FeaturePython";
               VStr (default "ReportingFunction" name)]) obj
       :: ask (ENew "_CfdReportingFunctions") proxy
       :: ask (ESetAttr proxy "Type" (VStr "ReportingFunction")) u1
       :: ask (ESetAttr proxy "Object" obj) u2
       :: ask (ESetAttr obj "Proxy" proxy) u3
       :: declarations ++ ask (EGlobal "FreeCAD.GuiUp") gui_up :: view /\
     events declarations = declare obj <$> reporting_function_properties /\
     (truthy gui_up = true ->
      exists view_object provider u4 u5,
        view = [ ask (EGetAttr obj "ViewObject") view_object;
                 ask (ENew "_ViewProviderCfdReportingFunctions") provider;
                 ask (ESetAttr view_object "Proxy" provider) u4;
                 ask (ESetAttr provider "taskd" VNone) u5 ]) /\
     (truthy gui_up = false -> view = [])) /\
  r2 = VNone /\
  (exists u1 u2 u3 u4 active_name u5,
     trace (interp host (Activated self) h2) =
       [ ask (ECall "FreeCAD.ActiveDocument.openTransaction"
                [VStr "Create CfdReportingFunctions object"]) u1;
         ask (ECall "FreeCADGui.doCommand"
                [VStr "from CfdOF.PostProcess import CfdReportingFunctions"]) u2;
         ask (ECall "FreeCADGui.doCommand"
                [VStr "from CfdOF import CfdTools"]) u3;
         ask (ECall "FreeCADGui.doCommand"
                [VStr "CfdTools.getActiveAnalysis().addObject(CfdReportingFunctions.makeCfdReportingFunctions())"]) u4;
         ask (EGlobal "FreeCAD.ActiveDocument.ActiveObject.Name") active_name;
         ask (ECall "FreeCADGui.ActiveDocument.setEdit" [active_name]) u5 ])).
Proof.
  intros host name self h h2 obj r2.
  assert (Hmake : outcome (interp host (makeCfdReportingFunctions name) h)
                  = Returned obj) by (vm_compute; reflexivity).
  assert (Hact : outcome (interp host (_CommandCfdReportingFunctions.Activated self) h2)
                 = Returned r2) by (vm_compute; reflexivity).
  split; [ exact Hmake | ]. split; [ exact Hact | ].
  exact (makeCfdReportingFunctions_creates host name self h h2 obj r2 Hmake Hact).
Defined.

(** Editing the reporting function, which belongs to the analysis. *)
Lemma setEdit_delegates_reference :
  let host := Reference.host in
  let h := Reference.attached in
  let self := VRef 6 in
  let vobj := VRef 4 in
  let mode := VInt 0 in
  let r := VBool true in
  (outcome (interp host (setEdit self vobj mode) h) = Returned r) /\
  (exists object analysis,
    (analysis = VNone /\ r = VBool false /\
     exists u,
       trace (interp host (setEdit self vobj mode) h) =
         [ ask (EGetAttr self "Object") object;
           ask (ECall "CfdTools.getParentAnalysisObject" [object]) analysis;
           ask (ECall "CfdTools.cfdErrorBox"
                  [VStr "Reporting function must have a parent analysis object"])
               u ])
    \/
    (analysis <> VNone /\ r = VBool true /\
     exists panel importlib u1 object1 taskd object2 view u2 object3 u3 u4,
       trace (interp host (setEdit self vobj mode) h) =
         [ ask (EGetAttr self "Object") object;
           ask (ECall "CfdTools.getParentAnalysisObject" [object]) analysis;
           ask (EImport "CfdOF.PostProcess.TaskPanelCfdReportingFunctions")
               panel;
           ask (EImport "importlib") importlib;
           ask (ECall "importlib.reload" [panel]) u1;
           ask (EGetAttr self "Object") object1;
           ask (EMethod panel "TaskPanelCfdReportingFunctions" [object1])
               taskd;
           ask (EGetAttr self "Object") object2;
           ask (EGetAttr object2 "ViewObject") view;
           ask (EMethod view "show" []) u2;
           ask (EGetAttr vobj "Object") object3;
           ask (ESetAttr taskd "obj" object3) u3;
           ask (ECall "FreeCADGui.Control.showDialog" [taskd]) u4 ])).
Proof.
  intros host h self vobj mode r.
  assert (Hrun : outcome (interp host (_ViewProviderCfdReportingFunctions.setEdit self vobj mode) h)
                 = Returned r) by (vm_compute; reflexivity).
  split; [ exact Hrun | ].
  exact (setEdit_delegates host self vobj mode h r Hrun).
Defined.

(** The command is active in a document with an active analysis. *)
Lemma IsActive_iff_analysis_reference :
  let host := Reference.host in
  let h := Reference.document true false in
  let h' := Reference.document true false in
  let self := VNone in
  let analysis := VRef 1 in
  (host (ECall "CfdTools.getActiveAnalysis" []) h = (Returned analysis, h')) /\
  (interp host (IsActive self) h
    = {| outcome := Returned (VBool (negb (is_none analysis)));
         final := h';
         trace := [ ask (ECall "CfdTools.getActiveAnalysis" []) analysis ] |} /\
  (outcome (interp host (IsActive self) h) = Returned (VBool true)
   <-> analysis <> VNone)).
Proof.
  intros host h h' self analysis.
  assert (E : host (ECall "CfdTools.getActiveAnalysis" []) h = (Returned analysis, h'))
    by (vm_compute; reflexivity).
  split; [ exact E | ].
  exact (IsActive_iff_analysis host self h h' analysis E).
Defined.

(** A change of [NBins] on the reporting function. *)
Lemma updateData_marks_analysis_reference :
  let host := Reference.host in
  let h := Reference.attached in
  let self := VRef 6 in
  let obj := VRef 3 in
  let prop := VStr "NBins" in
  let r := VNone in
  (outcome (interp host (updateData self obj prop) h) = Returned r) /\
  (r = VNone /\
  exists analysis,
    ((truthy analysis = false /\
      trace (interp host (updateData self obj prop) h) =
        [ ask (ECall "CfdTools.getParentAnalysisObject" [obj]) analysis ])
     \/
     (truthy analysis = true /\
      exists proxy loading,
        (truthy loading = true /\
         trace (interp host (updateData self obj prop) h) =
           [ ask (ECall "CfdTools.getParentAnalysisObject" [obj]) analysis;
             ask (EGetAttr analysis "Proxy") proxy;
             ask (EGetAttr proxy "loading") loading ])
        \/
        (truthy loading = false /\
         exists u,
           trace (interp host (updateData self obj prop) h) =
             [ ask (ECall "CfdTools.getParentAnalysisObject" [obj]) analysis;
               ask (EGetAttr analysis "Proxy") proxy;
               ask (EGetAttr proxy "loading") loading;
               ask (ESetAttr analysis "NeedsCaseRewrite" (VBool true)) u ])))
    /\
    (forall o a v,
       In (ESetAttr o a v) (events (trace (interp host (updateData self obj prop) h))) ->
       o = analysis /\ a = "NeedsCaseRewrite" /\ v = VBool true) /\
    (analysis <> obj ->
     forall a v,
       ~ In (ESetAttr obj a v)
            (events (trace (interp host (updateData self obj prop) h))))).
Proof.
  intros host h self obj prop r.
  assert (Hrun : outcome (interp host (_ViewProviderCfdReportingFunctions.updateData self obj prop) h)
                 = Returned r) by (vm_compute; reflexivity).
  split; [ exact Hrun | ].
  exact (updateData_marks_analysis host self obj prop h r Hrun).
Defined.

(** Attaching the view provider of the reporting function. *)
Lemma default_display_mode_undeclared_reference :
  let host := Reference.host in
  let h := Reference.activated in
  let self := VRef 6 in
  let vobj := VRef 4 in
  let obj := VRef 3 in
  (outcome (interp host (_ViewProviderCfdReportingFunctions.attach self vobj) h)
     = Returned VNone) /\
  (interp host (getDefaultDisplayMode self) h
    = {| outcome := Returned (VStr "Shaded"); final := h; trace := [] |} /\
  (exists modes,
     outcome (interp host (getDisplayModes self obj) h) = Returned (VList modes) /\
     ~ In (VStr "Shaded") modes) /\
  (forall recv args,
     In (EMethod recv "addDisplayMode" args)
        (events (trace (interp host (attach self vobj) h))) ->
     exists node, args = [node; VStr "Standard"] /\
                  args <> [node; VStr "Shaded"]) /\
  (forall r,
     outcome (interp host (attach self vobj) h) = Returned r ->
     exists u1 object u2 group u3 standard u4,
       trace (interp host (attach self vobj) h) =
         [ ask (ESetAttr self "ViewObject" vobj) u1;
           ask (EGetAttr vobj "Object") object;
           ask (ESetAttr self "Object" object) u2;
           ask (ECall "coin.SoGroup" []) group;
           ask (ESetAttr self "standard" group) u3;
           ask (EGetAttr self "standard") standard;
           ask (EMethod vobj "addDisplayMode" [standard; VStr "Standard"]) u4 ])).
Proof.
  intros host h self vobj obj.
  split; [ vm_compute; reflexivity | ].
  exact (default_display_mode_undeclared host self vobj obj h).
Defined.

End ReferenceRuns.

(** ** What the runs leave in the reference host *)

Section ReferenceStates.

Import _CfdReportingFunctions _CommandCfdReportingFunctions.
Import _ViewProviderCfdReportingFunctions.
Import Reference.

Lemma map_to_list_eq `{Countable K} {A} (m1 m2 : gmap K A) :
  map_to_list m1 = map_to_list m2 -> m1 = m2.
Proof.
  intros E. rewrite <- (list_to_map_to_list m1), <- (list_to_map_to_list m2).
  now rewrite E.
Qed.

(** The snapshot of a host determines it. *)
Lemma snapshot_inj (h1 h2 : Host) : snapshot h1 = snapshot h2 -> h1 = h2.
Proof.
  destruct h1 as [hp1 n1 g1 d1 a1 p1], h2 as [hp2 n2 g2 d2 a2 p2].
  unfold snapshot; cbn. intros E. injection E as Ehp En Eg Ed Ea Ep.
  apply map_to_list_eq in Ehp, Eg, Ed, Ep. subst.
  f_equal. apply map_eq; intros r.
  apply (f_equal (fun m => m !! r)) in Ehp. rewrite !lookup_fmap in Ehp.
  destruct (hp1 !! r) as [x | ], (hp2 !! r) as [y | ]; cbn in Ehp;
    try discriminate Ehp; [ | reflexivity ].
  injection Ehp as Ehp. now apply map_to_list_eq in Ehp as ->.
Qed.

(** After the menu command the analysis has the new object in its group
    and is its parent analysis; the object is called "ReportingFunction",
    its proxy is a [_CfdReportingFunctions] instance that points back at
    it, its view object has a [_ViewProviderCfdReportingFunctions] proxy,
    and it carries the seventeen declarations of the table. *)
Example activated_document :
  read_attr 1 "Group" activated = Some (VList [VRef 3]) /\
  parent_analysis activated !! 3%positive = Some 1%positive /\
  read_attr 3 "Name" activated = Some (VStr "ReportingFunction") /\
  read_attr 3 "TypeId" activated = Some (VStr "Part::FeaturePython") /\
  read_attr 3 "Proxy" activated = Some (VRef 5) /\
  read_attr 5 "__class__" activated = Some (VStr "_CfdReportingFunctions") /\
  read_attr 5 "Object" activated = Some (VRef 3) /\
  read_attr 3 "ViewObject" activated = Some (VRef 4) /\
  read_attr 4 "Proxy" activated = Some (VRef 6) /\
  read_attr 6 "__class__" activated
    = Some (VStr "_ViewProviderCfdReportingFunctions") /\
  declared activated !! 3%positive = Some reporting_function_properties.
Proof. vm_compute. repeat split. Qed.

(** Every declared property reads as its initial value: the first name of
    [OBJECT_NAMES] for the enumeration, the default of its row otherwise. *)
Example activated_defaults :
  Forall (fun p => read_attr 3 (pname p) activated = Some (initial_value p))
         reporting_function_properties /\
  read_attr 3 "ReportingFunctionType" activated = VStr <$> head OBJECT_NAMES.
Proof. split; [ repeat constructor | reflexivity ]. Qed.

(** With the GUI down no view provider is created. *)
Example created_without_gui :
  let r := interp host (makeCfdReportingFunctions None) (document false false) in
  outcome r = Returned (VRef 3) /\
  length (trace r) = 23 /\
  ~ In (ENew "_ViewProviderCfdReportingFunctions") (events (trace r)) /\
  read_attr 3 "ViewObject" (final r) = None.
Proof.
  vm_compute. repeat split.
  intros Hin. repeat (destruct Hin as [Hin | Hin]; [ discriminate Hin | ]).
  exact Hin.
Qed.

(** A given name is the name the document is asked for. *)
Example created_with_name :
  let r := interp host (makeCfdReportingFunctions (Some "Drag on hull"))
                  (document true false) in
  outcome r = Returned (VRef 3) /\
  read_attr 3 "Name" (final r) = Some (VStr "Drag on hull").
Proof. vm_compute. split; reflexivity. Qed.

(** Restoring the document changes nothing: every property is there. *)
Example restored_document :
  snapshot (final (interp host (onDocumentRestored (VRef 5) (VRef 3)) activated))
    = snapshot activated.
Proof. vm_compute. reflexivity. Qed.

(** [updateData] flips [NeedsCaseRewrite] of the analysis and nothing
    else: the reporting function is as it was. *)
Example updateData_state :
  let r := interp host (updateData (VRef 6) (VRef 3) (VStr "NBins")) attached in
  read_attr 1 "NeedsCaseRewrite" attached = Some (VBool false) /\
  read_attr 1 "NeedsCaseRewrite" (final r) = Some (VBool true) /\
  snapshot (final r)
    = snapshot (write_attr 1 "NeedsCaseRewrite" (VBool true) attached) /\
  map_to_list <$> heap (final r) !! 3%positive
    = map_to_list <$> heap attached !! 3%positive.
Proof. vm_compute. repeat split. Qed.

(** While the analysis is loading, [updateData] leaves the host alone. *)
Example updateData_while_loading :
  let h := write_attr 2 "loading" (VBool true) attached in
  let r := interp host (updateData (VRef 6) (VRef 3) (VStr "NBins")) h in
  outcome r = Returned VNone /\ snapshot (final r) = snapshot h.
Proof. vm_compute. split; reflexivity. Qed.

(** A reporting function outside any analysis cannot be edited: the error
    box is shown, [setEdit] returns [False], no dialog is shown. *)
Example setEdit_without_analysis :
  let made := final (interp host (makeCfdReportingFunctions None)
                            (document true false)) in
  let h := final (interp host (attach (VRef 6) (VRef 4)) made) in
  let r := interp host (setEdit (VRef 6) (VRef 4) (VInt 0)) h in
  outcome r = Returned (VBool false) /\
  events (trace r) =
    [ EGetAttr (VRef 6) "Object";
      ECall "CfdTools.getParentAnalysisObject" [VRef 3];
      ECall "CfdTools.cfdErrorBox"
        [VStr "Reporting function must have a parent analysis object"] ] /\
  snapshot (final r) = snapshot h.
Proof. vm_compute. repeat split. Qed.

(** Without an active analysis the command is not active. *)
Example IsActive_without_analysis :
  let h := {| heap := ∅; next := 1; globals := ∅; declared := ∅;
              active_analysis := None; parent_analysis := ∅ |} in
  outcome (interp host (IsActive VNone) h) = Returned (VBool false).
Proof. reflexivity. Qed.

End ReferenceStates.

(** * Further properties of the module *)

(** One interaction of any run, whose record is named by [Htr]: the host
    answers it or raises. *)
Ltac stepped host Htr :=
  rewrite interp_Do in Htr;
  match type of Htr with
  | context [ host ?e ?h ] =>
      let v := fresh "v" in
      let x := fresh "x" in
      let h' := fresh "h" in
      destruct (host e h) as [[v | x] h']; cbn in Htr
  end.

(** The hypothesis [Hin] that an interaction is among those listed:
    either it is none of them, or [tac] settles the goal. *)
Ltac among Hin tac :=
  cbn in Hin;
  repeat (destruct Hin as [Hin | Hin]; [ first [ discriminate Hin | tac ] | ]);
  contradiction.

Section Coverage.

Context {H : Type} (host : Event -> H -> Outcome PyVal * H).

Import _CfdReportingFunctions _CommandCfdReportingFunctions.
Import _ViewProviderCfdReportingFunctions.

(** X2: [doubleClicked], in a run that returns, returns [True] either
    way.  It asks the GUI document of the object whether an edit is going
    on: when none is, it puts the object, by its name, in edit mode and
    prints nothing; when one is, it prints "Task dialog already active"
    and shows the task view, and starts no second edit. *)
Theorem doubleClicked_edits_or_reports (self vobj : PyVal) (h : H) (r : PyVal) :
  outcome (interp host (doubleClicked self vobj) h) = Returned r ->
  r = VBool true /\
  exists object document doc in_edit,
    (truthy in_edit = false /\
     exists object' name u,
       trace (interp host (doubleClicked self vobj) h) =
         [ ask (EGetAttr vobj "Object") object;
           ask (EGetAttr object "Document") document;
           ask (ECall "FreeCADGui.getDocument" [document]) doc;
           ask (EMethod doc "getInEdit" []) in_edit;
           ask (EGetAttr vobj "Object") object';
           ask (EGetAttr object' "Name") name;
           ask (EMethod doc "setEdit" [name]) u ])
    \/
    (truthy in_edit = true /\
     exists u1 u2,
       trace (interp host (doubleClicked self vobj) h) =
         [ ask (EGetAttr vobj "Object") object;
           ask (EGetAttr object "Document") document;
           ask (ECall "FreeCADGui.getDocument" [document]) doc;
           ask (EMethod doc "getInEdit" []) in_edit;
           ask (ECall "FreeCAD.Console.PrintError"
                  [VStr "Task dialog already active
"]) u1;
           ask (ECall "FreeCADGui.Control.showTaskView" []) u2 ]).
Proof.
  intros Hrun. unfold doubleClicked in *. cbn in Hrun |- *.
  do 4 answered Hrun. rename v into object, v0 into document, v1 into doc,
    v2 into in_edit.
  destruct (truthy in_edit) eqn:Hedit; finished Hrun.
  - do 2 answered Hrun. injection Hrun as <-. split; [ reflexivity | ].
    exists object, document, doc, in_edit. right.
    split; [ exact Hedit | ]. exists v, v0. reflexivity.
  - do 3 answered Hrun. injection Hrun as <-. split; [ reflexivity | ].
    exists object, document, doc, in_edit. left.
    split; [ exact Hedit | ]. exists v, v0, v1. reflexivity.
Qed.

(** X3: the command and the view provider show the same icon.  From the
    same state, the [Pixmap] entry of [GetResources] is the path [getIcon]
    returns, and [GetResources] does what [getIcon] does followed by the
    two translation markers.  With [QT_TRANSLATE_NOOP] the marker Qt
    defines, answering its text, the menu text and the tool tip are the
    two literals of the source, under the keys "Pixmap", "MenuText" and
    "ToolTip" in this order. *)
Theorem GetResources_shows_icon (self self' : PyVal) (h : H) (icon : PyVal) :
  (forall context text h,
     host (ECall "QtCore.QT_TRANSLATE_NOOP" [context; text]) h
       = (Returned text, h)) ->
  outcome (interp host (getIcon self') h) = Returned icon ->
  outcome (interp host (GetResources self) h)
    = Returned
        (VDict [ ("Pixmap", icon);
                 ("MenuText", VStr "Reporting function");
                 ("ToolTip",
                  VStr "Create a reporting function for the current case") ]) /\
  final (interp host (GetResources self) h)
    = final (interp host (getIcon self') h) /\
  exists module_path,
    trace (interp host (getIcon self') h) =
      [ ask (ECall "CfdTools.getModulePath" []) module_path;
        ask (ECall "os.path.join"
               [module_path; VStr "Gui"; VStr "Icons"; VStr "monitor.svg"])
            icon ] /\
    trace (interp host (GetResources self) h) =
      trace (interp host (getIcon self') h) ++
      [ ask (ECall "QtCore.QT_TRANSLATE_NOOP"
               [VStr "Cfd_ReportingFunctions"; VStr "Reporting function"])
            (VStr "Reporting function");
        ask (ECall "QtCore.QT_TRANSLATE_NOOP"
               [VStr "Cfd_ReportingFunctions";
                VStr "Create a reporting function for the current case"])
            (VStr "Create a reporting function for the current case") ].
Proof.
  intros Hqt Hicon. unfold getIcon, GetResources in *. cbn in Hicon |- *.
  do 2 answered Hicon. injection Hicon as <-. rename v into module_path.
  rewrite interp_Do, E; cbn. rewrite interp_Do, E0; cbn.
  rewrite interp_Do, Hqt; cbn. rewrite interp_Do, Hqt; cbn.
  unfold mret, prog_ret. rewrite !interp_Ret. cbn.
  repeat split. exists module_path. split; reflexivity.
Qed.

Ltac performed :=
  repeat (cbn;
          match goal with
          | |- True => exact I
          | |- _ /\ _ => split
          | |- forall _ : PyVal, _ => intro
          | |- always _ (if ?c then _ else _) => destruct c
          | |- always _ ((if ?c then _ else _) ≫= _) => destruct c
          | |- always _ (bind (if ?c then _ else _) _) => destruct c
          | |- _ = true => reflexivity
          end).

Lemma body_assigns_within (op : Operation) :
  always (fun e => assigns_within op e = true) (body op).
Proof. destruct op; performed. Qed.

(** X4: no function of the module assigns a declared property.
    Whatever the host answers, an attribute an operation assigns is one
    of the few [writes] lists for it (bookkeeping of the proxies, and
    [NeedsCaseRewrite]), none of which is a property of the table: the
    values of the properties are left to the host and the user. *)
Theorem module_assigns_no_property
    (op : Operation) (h : H) (o : PyVal) (a : string) (v : PyVal) :
  In (ESetAttr o a v) (events (trace (interp host (body op) h))) ->
  In a (writes op) /\
  property a = None /\
  ~ In a (pname <$> reporting_function_properties).
Proof.
  intros Hin.
  pose proof (always_trace host _ _ h (body_assigns_within op)) as Hall.
  rewrite Forall_forall in Hall. apply list_elem_of_In in Hin.
  specialize (Hall _ Hin). unfold assigns_within in Hall.
  apply andb_prop in Hall as [Hw Hp].
  apply existsb_exists in Hw as (b & Hb & Heq).
  apply String.eqb_eq in Heq as <-.
  assert (Hnone : property a = None) by (now destruct (property a)).
  split; [ exact Hb | ]. split; [ exact Hnone | ].
  intros Hdecl. apply in_map_iff in Hdecl as (p & Hname & Hp').
  unfold property in Hnone.
  apply (find_none _ _ Hnone) in Hp'. cbn in Hp'.
  rewrite Hname, String.eqb_refl in Hp'. discriminate Hp'.
Qed.

(** X6: in every run of [setEdit], also one the host aborts, the error
    box and the task dialog exclude each other.  The error box is shown
    only when the parent analysis was answered [None], and then the run
    has these three interactions only: no module is loaded, no method
    called, nothing assigned.  The dialog is shown only when the parent
    analysis was answered something else, and what is shown is the task
    panel the run constructed. *)
Theorem setEdit_error_or_dialog (self vobj mode : PyVal) (h : H) :
  (forall args,
     In (ECall "CfdTools.cfdErrorBox" args)
        (events (trace (interp host (setEdit self vobj mode) h))) ->
     (exists object,
        trace (interp host (setEdit self vobj mode) h) !! 1
          = Some (ask (ECall "CfdTools.getParentAnalysisObject" [object]) VNone)) /\
     Forall quiet (events (trace (interp host (setEdit self vobj mode) h))) /\
     length (trace (interp host (setEdit self vobj mode) h)) = 3) /\
  (forall args,
     In (ECall "FreeCADGui.Control.showDialog" args)
        (events (trace (interp host (setEdit self vobj mode) h))) ->
     (exists object analysis,
        trace (interp host (setEdit self vobj mode) h) !! 1
          = Some (ask (ECall "CfdTools.getParentAnalysisObject" [object]) analysis) /\
        analysis <> VNone) /\
     (exists panel object taskd,
        trace (interp host (setEdit self vobj mode) h) !! 6
          = Some (ask (EMethod panel "TaskPanelCfdReportingFunctions" [object]) taskd) /\
        args = [taskd]) /\
     forall args',
       ~ In (ECall "CfdTools.cfdErrorBox" args')
            (events (trace (interp host (setEdit self vobj mode) h)))).
Proof.
  remember (trace (interp host (setEdit self vobj mode) h)) as tr eqn:Htr.
  unfold setEdit in Htr. cbn in Htr.
  stepped host Htr;
    [ | subst tr; split; intros args Hin; among Hin idtac ].
  stepped host Htr;
    [ | subst tr; split; intros args Hin; among Hin idtac ].
  destruct (is_none v0) eqn:Hnone; cbn in Htr.
  - apply is_none_true in Hnone as ->.
    stepped host Htr; subst tr;
      (split; [ intros args _; split; [ exists v; reflexivity | ];
                split; [ repeat constructor | reflexivity ]
              | intros args Hin; among Hin idtac ]).
  - apply is_none_false in Hnone.
    do 10 (stepped host Htr;
           [ | subst tr; split; intros args Hin; among Hin idtac ]).
    stepped host Htr; subst tr;
      (split; [ intros args Hin; among Hin idtac | ];
       intros args Hin;
       split; [ exists v, v0; split; [ reflexivity | exact Hnone ] | ];
       split; [ exists v1, v4, v5; split; [ reflexivity | ];
                among Hin ltac:(now injection Hin as <-) | ];
       intros args' Hin'; among Hin' idtac).
Qed.

(** X7: against a host that reads back what was assigned, [attach], in
    a run that returns, registers under "Standard" the scene-graph group
    it has just created, after storing on the provider the object of the
    view. *)
Theorem attach_registers_its_group (self vobj : PyVal) (h : H) (r : PyVal) :
  (forall o a v h u h',
     host (ESetAttr o a v) h = (Returned u, h') ->
     host (EGetAttr o a) h' = (Returned v, h')) ->
  outcome (interp host (attach self vobj) h) = Returned r ->
  r = VNone /\
  exists object group u,
    trace (interp host (attach self vobj) h) !! 1
      = Some (ask (EGetAttr vobj "Object") object) /\
    trace (interp host (attach self vobj) h) !! 2
      = Some (ask (ESetAttr self "Object" object) u) /\
    trace (interp host (attach self vobj) h) !! 3
      = Some (ask (ECall "coin.SoGroup" []) group) /\
    event <$> last (trace (interp host (attach self vobj) h))
      = Some (EMethod vobj "addDisplayMode" [group; VStr "Standard"]).
Proof.
  intros Hstore Hrun. unfold attach in *. cbn in Hrun |- *.
  do 7 answered Hrun. injection Hrun as <-. split; [ reflexivity | ].
  rewrite (Hstore _ _ _ _ _ _ E3) in E4. injection E4 as <- _.
  exists v0, v2, v1. repeat split.
Qed.

End Coverage.

(** ** The further properties on concrete hosts *)

Section CoverageRuns.

Import _CfdReportingFunctions _CommandCfdReportingFunctions.
Import _ViewProviderCfdReportingFunctions.

(** The reference host reads back what was assigned. *)
Lemma reference_reads_back (o : PyVal) (a : string) (v : PyVal)
    (h : Reference.Host) (u : PyVal) (h' : Reference.Host) :
  Reference.host (ESetAttr o a v) h = (Returned u, h') ->
  Reference.host (EGetAttr o a) h' = (Returned v, h').
Proof.
  destruct o; cbn; intros E; try discriminate E.
  injection E as _ <-.
  unfold Reference.read_attr, Reference.write_attr; cbn.
  rewrite lookup_insert_eq; cbn. rewrite lookup_insert_eq. reflexivity.
Qed.

(** The reference host answers a translation marker with its text. *)
Lemma reference_translates (context text : PyVal) (h : Reference.Host) :
  Reference.host (ECall "QtCore.QT_TRANSLATE_NOOP" [context; text]) h
    = (Returned text, h).
Proof. destruct context; reflexivity. Qed.

(** A double click while nothing is being edited, against a host that
    answers from a script. *)
Lemma doubleClicked_edits_or_reports_replay :
  let host := replay in
  let h := [VRef 3; VStr "Unnamed"; VRef 9; VNone; VRef 3;
            VStr "ReportingFunction"; VBool true] in
  let self := VRef 6 in
  let vobj := VRef 4 in
  let r := VBool true in
  (outcome (interp host (doubleClicked self vobj) h) = Returned r) /\
  (r = VBool true /\
  exists object document doc in_edit,
    (truthy in_edit = false /\
     exists object' name u,
       trace (interp host (doubleClicked self vobj) h) =
         [ ask (EGetAttr vobj "Object") object;
           ask (EGetAttr object "Document") document;
           ask (ECall "FreeCADGui.getDocument" [document]) doc;
           ask (EMethod doc "getInEdit" []) in_edit;
           ask (EGetAttr vobj "Object") object';
           ask (EGetAttr object' "Name") name;
           ask (EMethod doc "setEdit" [name]) u ])
    \/
    (truthy in_edit = true /\
     exists u1 u2,
       trace (interp host (doubleClicked self vobj) h) =
         [ ask (EGetAttr vobj "Object") object;
           ask (EGetAttr object "Document") document;
           ask (ECall "FreeCADGui.getDocument" [document]) doc;
           ask (EMethod doc "getInEdit" []) in_edit;
           ask (ECall "FreeCAD.Console.PrintError"
                  [VStr "Task dialog already active
"]) u1;
           ask (ECall "FreeCADGui.Control.showTaskView" []) u2 ])).
Proof.
  intros host h self vobj r.
  assert (Hrun : outcome (interp host (doubleClicked self vobj) h) = Returned r)
    by (vm_compute; reflexivity).
  split; [ exact Hrun | ].
  exact (doubleClicked_edits_or_reports host self vobj h r Hrun).
Defined.

(** The resources of the command on the reference host. *)
Lemma GetResources_shows_icon_reference :
  let host := Reference.host in
  let h := Reference.attached in
  let self := VNone in
  let self' := VRef 6 in
  let icon := VStr "Mod/CfdOF/Gui/Icons/monitor.svg" in
  ((forall context text h,
     host (ECall "QtCore.QT_TRANSLATE_NOOP" [context; text]) h
       = (Returned text, h))) /\
  (outcome (interp host (getIcon self') h) = Returned icon) /\
  (outcome (interp host (GetResources self) h)
    = Returned
        (VDict [ ("Pixmap", icon);
                 ("MenuText", VStr "Reporting function");
                 ("ToolTip",
                  VStr "Create a reporting function for the current case") ]) /\
  final (interp host (GetResources self) h)
    = final (interp host (getIcon self') h) /\
  exists module_path,
    trace (interp host (getIcon self') h) =
      [ ask (ECall "CfdTools.getModulePath" []) module_path;
        ask (ECall "os.path.join"
               [module_path; VStr "Gui"; VStr "Icons"; VStr "monitor.svg"])
            icon ] /\
    trace (interp host (GetResources self) h) =
      trace (interp host (getIcon self') h) ++
      [ ask (ECall "QtCore.QT_TRANSLATE_NOOP"
               [VStr "Cfd_ReportingFunctions"; VStr "Reporting function"])
            (VStr "Reporting function");
        ask (ECall "QtCore.QT_TRANSLATE_NOOP"
               [VStr "Cfd_ReportingFunctions";
                VStr "Create a reporting function for the current case"])
            (VStr "Create a reporting function for the current case") ]).
Proof.
  intros host h self self' icon.
  assert (Hicon : outcome (interp host (getIcon self') h) = Returned icon)
    by (vm_compute; reflexivity).
  split; [ exact reference_translates | ]. split; [ exact Hicon | ].
  exact (GetResources_shows_icon host self self' h icon
           reference_translates Hicon).
Defined.

(** The one assignment of [updateData] on the reference host. *)
Lemma module_assigns_no_property_reference :
  let host := Reference.host in
  let h := Reference.attached in
  let op := View_updateData (VRef 6) (VRef 3) (VStr "NBins") in
  let o := VRef 1 in
  let a := "NeedsCaseRewrite" in
  let v := VBool true in
  (In (ESetAttr o a v) (events (trace (interp host (body op) h)))) /\
  (In a (writes op) /\
  property a = None /\
  ~ In a (pname <$> reporting_function_properties)).
Proof.
  intros host h op o a v.
  assert (Hin : In (ESetAttr o a v) (events (trace (interp host (body op) h)))).
  { vm_compute. do 3 right. left. reflexivity. }
  split; [ exact Hin | ].
  exact (module_assigns_no_property host op h o a v Hin).
Defined.

(** Attaching the view provider on the reference host. *)
Lemma attach_registers_its_group_reference :
  let host := Reference.host in
  let h := Reference.activated in
  let self := VRef 6 in
  let vobj := VRef 4 in
  let r := VNone in
  ((forall o a v h u h',
     host (ESetAttr o a v) h = (Returned u, h') ->
     host (EGetAttr o a) h' = (Returned v, h'))) /\
  (outcome (interp host (attach self vobj) h) = Returned r) /\
  (r = VNone /\
  exists object group u,
    trace (interp host (attach self vobj) h) !! 1
      = Some (ask (EGetAttr vobj "Object") object) /\
    trace (interp host (attach self vobj) h) !! 2
      = Some (ask (ESetAttr self "Object" object) u) /\
    trace (interp host (attach self vobj) h) !! 3
      = Some (ask (ECall "coin.SoGroup" []) group) /\
    event <$> last (trace (interp host (attach self vobj) h))
      = Some (EMethod vobj "addDisplayMode" [group; VStr "Standard"])).
Proof.
  intros host h self vobj r.
  assert (Hrun : outcome (interp host (attach self vobj) h) = Returned r)
    by (vm_compute; reflexivity).
  split; [ exact reference_reads_back | ]. split; [ exact Hrun | ].
  exact (attach_registers_its_group host self vobj h r
           reference_reads_back Hrun).
Defined.

(** Editing the reporting function on the reference host shows the
    dialog. *)
Lemma setEdit_error_or_dialog_reference :
  let host := Reference.host in
  let h := Reference.attached in
  let self := VRef 6 in
  let vobj := VRef 4 in
  let mode := VInt 0 in
  In (ECall "FreeCADGui.Control.showDialog" [VRef 8])
     (events (trace (interp host (setEdit self vobj mode) h))) /\
  ((forall args,
     In (ECall "CfdTools.cfdErrorBox" args)
        (events (trace (interp host (setEdit self vobj mode) h))) ->
     (exists object,
        trace (interp host (setEdit self vobj mode) h) !! 1
          = Some (ask (ECall "CfdTools.getParentAnalysisObject" [object]) VNone)) /\
     Forall quiet (events (trace (interp host (setEdit self vobj mode) h))) /\
     length (trace (interp host (setEdit self vobj mode) h)) = 3) /\
  (forall args,
     In (ECall "FreeCADGui.Control.showDialog" args)
        (events (trace (interp host (setEdit self vobj mode) h))) ->
     (exists object analysis,
        trace (interp host (setEdit self vobj mode) h) !! 1
          = Some (ask (ECall "CfdTools.getParentAnalysisObject" [object]) analysis) /\
        analysis <> VNone) /\
     (exists panel object taskd,
        trace (interp host (setEdit self vobj mode) h) !! 6
          = Some (ask (EMethod panel "TaskPanelCfdReportingFunctions" [object]) taskd) /\
        args = [taskd]) /\
     forall args',
       ~ In (ECall "CfdTools.cfdErrorBox" args')
            (events (trace (interp host (setEdit self vobj mode) h))))).
Proof.
  intros host h self vobj mode.
  split; [ vm_compute; do 12 right; left; reflexivity | ].
  exact (setEdit_error_or_dialog host self vobj mode h).
Defined.

End CoverageRuns.


(** * The vector constructor *)

Section Similar.

Context {H : Type} (host : Event -> H -> Outcome PyVal * H).

Lemma similar_run {A} (p q : Prog A) (h : H) :
  similar p q -> interp host p h = interp host q h.
Proof.
  revert q h; induction p as [a | e k IH]; intros [b | e' k'] h; cbn;
    try contradiction.
  - now intros ->.
  - intros [<- Hk]. rewrite !interp_Do.
    destruct (host e h) as [[v | x] h']; [ | reflexivity ].
    now rewrite (IH v (k' v) h' (Hk v)).
Qed.

End Similar.

Section Construction.

Context {H : Type} (host : Event -> H -> Outcome PyVal * H).

(** Replacing the constructor calls of a program by the vectors they
    build is, against a host with the constructor, the same run without
    their entries in the record. *)
Lemma construct_run {A} (p : Prog A) (h : H) :
  interp (with_vectors host) (construct p) h =
    {| outcome := outcome (interp (with_vectors host) p h);
       final := final (interp (with_vectors host) p h);
       trace := erase (trace (interp (with_vectors host) p h)) |}.
Proof.
  revert h; induction p as [a | e k IH]; intros h.
  - reflexivity.
  - assert (Hhost : with_vectors host e h
                    = match vector_of e with
                      | Some v => (Returned v, h)
                      | None => host e h
                      end) by reflexivity.
    cbn [construct]. rewrite (interp_Do _ e k), Hhost.
    destruct (vector_of e) as [v | ] eqn:Ev.
    + rewrite IH. cbn. now rewrite Ev.
    + rewrite interp_Do, Hhost.
      destruct (host e h) as [[v | x] h']; cbn; rewrite Ev; [ | reflexivity ].
      now rewrite IH.
Qed.

(** A program and itself. *)
Ltac alike :=
  repeat (cbn;
          match goal with
          | |- True => exact I
          | |- _ = _ => reflexivity
          | |- _ /\ _ => split
          | |- forall _ : PyVal, _ => intro
          | |- similar (if ?c then _ else _) _ => destruct c
          | |- similar ((if ?c then _ else _) ≫= _) _ => destruct c
          | |- similar (bind (if ?c then _ else _) _) _ => destruct c
          | |- similar (construct (if ?c then _ else _)) _ => destruct c
          | |- similar (construct ((if ?c then _ else _) ≫= _)) _ => destruct c
          | |- similar (construct (bind (if ?c then _ else _) _)) _ => destruct c
          end).

(** The functions of the first reading are those of the second with the
    constructor calls replaced by the vectors. *)
Lemma construct_body (op : Operation) :
  similar (construct (Recorded.body op)) (body op).
Proof. destruct op; alike. Qed.

(** Against a host with the constructor, a function of the first reading
    runs as the function with the calls recorded does, the constructor
    calls left out of the record: same outcome, same final state. *)
Lemma recorded_run (op : Operation) (h : H) :
  interp (with_vectors host) (body op) h =
    {| outcome := outcome (interp (with_vectors host) (Recorded.body op) h);
       final := final (interp (with_vectors host) (Recorded.body op) h);
       trace := erase (trace (interp (with_vectors host) (Recorded.body op) h)) |}.
Proof.
  rewrite <- construct_run. symmetry. apply similar_run, construct_body.
Qed.

(** [Recorded.initProperties] is the table, row by row, each vector
    default built by a call first. *)
Lemma recorded_table (self obj : PyVal) :
  Recorded.initProperties self obj
    = declare_rows obj reporting_function_properties.
Proof. reflexivity. Qed.

Lemma with_default_same (p : Property) : with_default p (pdefault p) = p.
Proof. now destruct p. Qed.

Lemma calls_cons (obj : PyVal) (p : Property) (ps : list Property) :
  calls obj (p :: ps) = construction p ++ declare obj p :: calls obj ps.
Proof. unfold calls. cbn. now rewrite <- app_assoc. Qed.

(** The calls of a list of rows against a host whose constructor, when it
    answers, answers the vector: the calls in order, up to and including
    the first one the host refuses. *)
Lemma declare_rows_prefix (obj : PyVal) (ps : list Property) (h : H) :
  (forall x y z h v h',
     host (ECall "FreeCAD.Vector" [VInt x; VInt y; VInt z]) h = (Returned v, h') ->
     v = VVector x y z) ->
  exists n,
    n <= length (calls obj ps) /\
    events (trace (interp host (declare_rows obj ps) h))
      = take n (calls obj ps) /\
    match outcome (interp host (declare_rows obj ps) h) with
    | Returned r => r = VNone /\ n = length (calls obj ps)
    | Raised x =>
        exists e,
          calls obj ps !! (n - 1) = Some e /\ 0 < n /\
          last (trace (interp host (declare_rows obj ps) h))
            = Some {| event := e; answer := Raised x |}
    end.
Proof.
  intros Hvec. revert h; induction ps as [ | p ps IH]; intros h.
  - exists 0. repeat split; reflexivity.
  - assert (Hstep : forall h1,
      exists n,
        n <= length (declare obj p :: calls obj ps) /\
        events (trace (interp host (Do (declare obj p)
                                      (fun _ => declare_rows obj ps)) h1))
          = take n (declare obj p :: calls obj ps) /\
        match outcome (interp host (Do (declare obj p)
                                      (fun _ => declare_rows obj ps)) h1) with
        | Returned r => r = VNone /\ n = length (declare obj p :: calls obj ps)
        | Raised x =>
            exists e,
              (declare obj p :: calls obj ps) !! (n - 1) = Some e /\ 0 < n /\
              last (trace (interp host (Do (declare obj p)
                                          (fun _ => declare_rows obj ps)) h1))
                = Some {| event := e; answer := Raised x |}
        end).
    { intros h1. rewrite interp_Do.
      destruct (host (declare obj p) h1) as [[v | x] h2].
      - destruct (IH h2) as (n & Hn & Hev & Hout). exists (S n). cbn.
        split; [ lia | ].
        split; [ unfold events in Hev |- *; now rewrite Hev | ].
        destruct (outcome (interp host (declare_rows obj ps) h2)) as [r | x].
        + destruct Hout as [-> ->]. split; reflexivity.
        + destruct Hout as (e & He & Hpos & Hlast). exists e.
          split; [ | split; [ lia | ] ].
          * destruct n as [ | n]; [ lia | ]. cbn in He |- *.
            now rewrite Nat.sub_0_r in He.
          * rewrite last_cons, Hlast. reflexivity.
      - exists 1. cbn. split; [ lia | ]. split; [ reflexivity | ].
        exists (declare obj p). repeat split. lia. }
    rewrite calls_cons. unfold construction. cbn [declare_rows].
    destruct (pdefault p) as [ | b | k | s | items | entries | x y z | m | r ]
      eqn:Hdefault; cbn [app]; try exact (Hstep h).
    rewrite interp_Do.
    destruct (host (ECall "FreeCAD.Vector" [VInt x; VInt y; VInt z]) h)
      as [[v | exn] h1] eqn:Ehost.
    + apply Hvec in Ehost as ->. rewrite <- Hdefault, with_default_same.
      destruct (Hstep h1) as (n & Hn & Hev & Hout). exists (S n).
      cbn [outcome trace length events fmap list_fmap take].
      split; [ cbn in Hn |- *; lia | ].
      split; [ unfold events in Hev |- *; cbn; now rewrite Hev | ].
      destruct (outcome (interp host (Do (declare obj p)
                                        (fun _ => declare_rows obj ps)) h1))
        as [r | exn].
      * destruct Hout as [-> ->]. split; reflexivity.
      * destruct Hout as (e & He & Hpos & Hlast). exists e.
        split; [ | split; [ lia | ] ].
        -- destruct n as [ | n]; [ lia | ]. cbn in He |- *.
           now rewrite Nat.sub_0_r in He.
        -- rewrite last_cons, Hlast. reflexivity.
    + exists 1. cbn. split; [ lia | ]. split; [ reflexivity | ].
      eexists. repeat split. lia.
Qed.

(** X1: [initProperties] makes twenty-three calls: the seventeen
    declarations of the table in order, each property name once, with
    the six [FreeCAD.Vector] constructions each just before the
    declaration that takes the vector.  Against every host whose
    constructor, when it answers, answers the vector, a run is these
    calls up to and including the first one the host refuses, be it a
    declaration or a construction; that call is then the last entry of
    the record and its exception is passed on.  The run returns, and
    returns [None], only after all twenty-three. *)
Theorem initProperties_in_order (self obj : PyVal) (h : H) :
  (forall x y z h v h',
     host (ECall "FreeCAD.Vector" [VInt x; VInt y; VInt z]) h = (Returned v, h') ->
     v = VVector x y z) ->
  NoDup (pname <$> reporting_function_properties) /\
  length (calls obj reporting_function_properties) = 23 /\
  exists n,
    n <= 23 /\
    events (trace (interp host (Recorded.initProperties self obj) h))
      = take n (calls obj reporting_function_properties) /\
    match outcome (interp host (Recorded.initProperties self obj) h) with
    | Returned r => r = VNone /\ n = 23
    | Raised x =>
        exists e,
          calls obj reporting_function_properties !! (n - 1) = Some e /\
          0 < n /\
          last (trace (interp host (Recorded.initProperties self obj) h))
            = Some {| event := e; answer := Raised x |}
    end.
Proof.
  intros Hvec. split; [ | split; [ reflexivity | ] ].
  - apply (bool_decide_unpack _). vm_compute. reflexivity.
  - rewrite recorded_table.
    exact (declare_rows_prefix obj reporting_function_properties h Hvec).
Qed.

End Construction.

(** ** The module as a whole *)



Section Module.

Context {H : Type} (host : Event -> H -> Outcome PyVal * H).









End Module.

(** ** The module as a whole, on the reference host *)

Section ModuleRuns.

(** The reference host with the constructor builds the vectors. *)
Lemma reference_builds_vectors (x y z : Z) (h : Reference.Host) (v : PyVal)
    (h' : Reference.Host) :
  with_vectors Reference.host (ECall "FreeCAD.Vector" [VInt x; VInt y; VInt z]) h
    = (Returned v, h') ->
  v = VVector x y z.
Proof. cbn. intros E. now injection E as <- _. Qed.

(** Restoring the reporting function, the constructor calls recorded. *)
Lemma initProperties_in_order_reference :
  let host := with_vectors Reference.host in
  let h := Reference.activated in
  let self := VRef 5 in
  let obj := VRef 3 in
  ((forall x y z h v h',
     host (ECall "FreeCAD.Vector" [VInt x; VInt y; VInt z]) h = (Returned v, h') ->
     v = VVector x y z)) /\
  (NoDup (pname <$> reporting_function_properties) /\
  length (calls obj reporting_function_properties) = 23 /\
  exists n,
    n <= 23 /\
    events (trace (interp host (Recorded.initProperties self obj) h))
      = take n (calls obj reporting_function_properties) /\
    match outcome (interp host (Recorded.initProperties self obj) h) with
    | Returned r => r = VNone /\ n = 23
    | Raised x =>
        exists e,
          calls obj reporting_function_properties !! (n - 1) = Some e /\
          0 < n /\
          last (trace (interp host (Recorded.initProperties self obj) h))
            = Some {| event := e; answer := Raised x |}
    end).
Proof.
  intros host h self obj.
  split; [ exact reference_builds_vectors | ].
  exact (initProperties_in_order host self obj h reference_builds_vectors).
Defined.


(** What the statement excludes: a call that is not listed, a console
    statement of its own, a number that is neither 0 nor 1. *)
Example unlisted_call : interface_of (ECall "open" [VStr "results.dat"]) = None.
Proof. reflexivity. Qed.

Example other_statement :
  sends_statement (ECall "FreeCADGui.doCommand" [VStr "solver.run()"]) = false.
Proof. reflexivity. Qed.

Example computed_number :
  ~ hands_on [] (call "FreeCAD.Vector" [VInt 2; VInt 0; VInt 0]).
Proof.
  cbn. intros [Hall _]. inversion Hall as [ | v l [Hlit | []] _ ].
  discriminate Hlit.
Qed.

(** Against the reference host with the constructor, the factory with the
    constructor calls recorded leaves the host as the factory does. *)
Example recorded_factory :
  Reference.snapshot
    (final (interp (with_vectors Reference.host)
                   (Recorded.makeCfdReportingFunctions None)
                   (Reference.document true false)))
  = Reference.snapshot
      (final (interp Reference.host (makeCfdReportingFunctions None)
                     (Reference.document true false))).
Proof. vm_compute. reflexivity. Qed.

End ModuleRuns.
